(** * Letter analyzer: the response parser of [backend/main.py]

    A shallow embedding of [parse_ai_response] and of the Python string
    operations it calls, followed by the properties of the parser.

    Python [str] values are sequences of Unicode code points; a code point
    is a number of type [N] and a string is a list of them.  Literals of
    the source are written with [str "..."]. *)

From Stdlib Require Import NArith Ascii String.
From stdpp Require Import base list option gmap.

Local Open Scope N_scope.

(** ** Python strings *)

Definition char := N.
Definition pystr := list char.

Definition str (s : string) : pystr :=
  map N_of_ascii (list_ascii_of_string s).

(** [ch.isspace()] as [str.strip()] uses it: the code points CPython
    classifies as whitespace. *)
Definition isspace (c : char) : bool :=
  ((0x09 <=? c) && (c <=? 0x0D)) || ((0x1C <=? c) && (c <=? 0x20))
  || (c =? 0x85) || (c =? 0xA0) || (c =? 0x1680)
  || ((0x2000 <=? c) && (c <=? 0x200A))
  || (c =? 0x2028) || (c =? 0x2029) || (c =? 0x202F) || (c =? 0x205F)
  || (c =? 0x3000).

Definition NEWLINE : char := 0x0A.

(** [s.split('\n')]: the pieces between the separators; never empty. *)
Fixpoint split (sep : char) (s : pystr) : list pystr :=
  match s with
  | [] => [[]]
  | c :: s' =>
      if c =? sep then [] :: split sep s'
      else match split sep s' with
           | [] => [[c]]
           | piece :: pieces => (c :: piece) :: pieces
           end
  end.

Fixpoint lstrip (s : pystr) : pystr :=
  match s with
  | [] => []
  | c :: s' => if isspace c then lstrip s' else s
  end.

Fixpoint rstrip (s : pystr) : pystr :=
  match s with
  | [] => []
  | c :: s' =>
      match rstrip s' with
      | [] => if isspace c then [] else [c]
      | r => c :: r
      end
  end.

(** [s.strip()] *)
Definition strip (s : pystr) : pystr := rstrip (lstrip s).

(** [s.startswith(prefix)] *)
Fixpoint startswith (s prefix : pystr) {struct prefix} : bool :=
  match prefix, s with
  | [], _ => true
  | _ :: _, [] => false
  | p :: prefix', c :: s' => (c =? p) && startswith s' prefix'
  end.

(** [sub in s] *)
Fixpoint contains (sub s : pystr) : bool :=
  startswith s sub
  || match s with
     | [] => false
     | _ :: s' => contains sub s'
     end.

(** [not s]: the truth value of a string is its non-emptiness. *)
Definition falsy (s : pystr) : bool :=
  match s with [] => true | _ :: _ => false end.

(** ** The pydantic model *)

Module AnalysisResponse.
Record t := mk {
  summary : pystr;
  highlights : list pystr;
  what_to_do : list pystr;
  important_dates : list pystr;
  email_prompt : option pystr
}.
End AnalysisResponse.

(** Values as the interpreter passes them to the model's constructor. *)
#[warnings="-register-all"]
Inductive pyval :=
| PyNone
| PyStr (s : pystr)
| PyList (items : list pyval).

Definition validate_str (v : pyval) : option pystr :=
  match v with PyStr s => Some s | _ => None end.

Definition validate_list_str (v : pyval) : option (list pystr) :=
  match v with
  | PyList items => mapM validate_str items
  | _ => None
  end.

Definition validate_optional_str (v : pyval) : option (option pystr) :=
  match v with
  | PyNone => Some None
  | PyStr s => Some (Some s)
  | PyList _ => None
  end.

(** [AnalysisResponse(summary=..., ...)]: field validation; [None] stands
    for the [ValidationError] the constructor raises. *)
Definition AnalysisResponse_init
    (summary highlights what_to_do important_dates email_prompt : pyval)
    : option AnalysisResponse.t :=
  s ← validate_str summary;
  h ← validate_list_str highlights;
  w ← validate_list_str what_to_do;
  d ← validate_list_str important_dates;
  e ← validate_optional_str email_prompt;
  Some (AnalysisResponse.mk s h w d e).

(** ** The parser *)

Inductive section := Summary | Highlights | WhatToDo | ImportantDates | EmailPrompt.

Definition section_eqb (a b : section) : bool :=
  match a, b with
  | Summary, Summary | Highlights, Highlights | WhatToDo, WhatToDo
  | ImportantDates, ImportantDates | EmailPrompt, EmailPrompt => true
  | _, _ => false
  end.

(** The marker a header line of the section carries. *)
Definition marker (sec : section) : pystr :=
  match sec with
  | Summary => str "**Summary:**"
  | Highlights => str "**Highlights:**"
  | WhatToDo => str "**What To Do:**"
  | ImportantDates => str "**Important Dates:**"
  | EmailPrompt => str "**Email Prompt:**"
  end.
Arguments marker : simpl never.

(** The local variables of [parse_ai_response]. *)
Record locals := Locals {
  summary : pystr;
  highlights : list pystr;
  what_to_do : list pystr;
  important_dates : list pystr;
  email_prompt : option pystr;
  current_section : option section
}.

Definition set_section (sec : section) (st : locals) : locals :=
  Locals (summary st) (highlights st) (what_to_do st) (important_dates st)
    (email_prompt st) (Some sec).

Definition set_summary (line : pystr) (st : locals) : locals :=
  Locals line (highlights st) (what_to_do st) (important_dates st)
    (email_prompt st) (current_section st).

Definition set_email_prompt (line : pystr) (st : locals) : locals :=
  Locals (summary st) (highlights st) (what_to_do st) (important_dates st)
    (Some line) (current_section st).

(** [xs.append(content)] on the list of section [sec]; the three list
    sections are the only ones the caller reaches it with. *)
Definition append_to (sec : section) (content : pystr) (st : locals) : locals :=
  match sec with
  | Highlights =>
      Locals (summary st) (highlights st ++ [content]) (what_to_do st)
        (important_dates st) (email_prompt st) (current_section st)
  | WhatToDo =>
      Locals (summary st) (highlights st) (what_to_do st ++ [content])
        (important_dates st) (email_prompt st) (current_section st)
  | ImportantDates =>
      Locals (summary st) (highlights st) (what_to_do st)
        (important_dates st ++ [content]) (email_prompt st) (current_section st)
  | _ => st
  end.

(** [current_section in ["highlights", "what_to_do", "important_dates"]] *)
Definition in_list_sections (cur : option section) : bool :=
  match cur with
  | Some Highlights | Some WhatToDo | Some ImportantDates => true
  | _ => false
  end.

Definition is_section (cur : option section) (sec : section) : bool :=
  match cur with
  | Some s => section_eqb s sec
  | None => false
  end.

(** The body of the [for] loop, on the line already stripped and known
    to be non-empty: the [if]/[elif] chain. *)
Definition dispatch (st : locals) (line : pystr) : locals :=
  if contains (marker Summary) line then set_section Summary st
  else if contains (marker Highlights) line then set_section Highlights st
  else if contains (marker WhatToDo) line then set_section WhatToDo st
  else if contains (marker ImportantDates) line then set_section ImportantDates st
  else if contains (marker EmailPrompt) line then set_section EmailPrompt st
  else if startswith line (str "- ") && in_list_sections (current_section st) then
    let content := strip (drop 2 line) in
    match current_section st with
    | Some sec => append_to sec content st
    | None => st
    end
  else if is_section (current_section st) Summary
          && negb (falsy line) && negb (startswith line (str "**")) then
    set_summary line st
  else if is_section (current_section st) EmailPrompt
          && negb (falsy line) && negb (startswith line (str "**")) then
    set_email_prompt line st
  else st.

(** One iteration of the loop, on a raw line. *)
Definition step (st : locals) (raw : pystr) : locals :=
  let line := strip raw in
  if falsy line then st else dispatch st line.

Definition init : locals := Locals [] [] [] [] None None.

Definition parse_lines (st : locals) (lines : list pystr) : locals :=
  fold_left step lines st.

Definition inject_opt (o : option pystr) : pyval :=
  match o with Some s => PyStr s | None => PyNone end.

Definition parse_ai_response (response_text : pystr) : option AnalysisResponse.t :=
  let lines := split NEWLINE response_text in
  let st := parse_lines init lines in
  AnalysisResponse_init
    (PyStr (summary st))
    (PyList (map PyStr (highlights st)))
    (PyList (map PyStr (what_to_do st)))
    (PyList (map PyStr (important_dates st)))
    (inject_opt (email_prompt st)).

(** ** The parser over a store of list objects

    The three lists of the source are objects of the interpreter's heap:
    [[]] allocates a fresh one, [append] updates it in place, and the
    local variables hold their addresses.  The heap of the caller holds
    whatever other list objects the process has. *)

Module Store.

Abbreviation heap := (gmap nat (list pystr)).

(** [[]]: a new empty list object, at an address not in use. *)
Definition alloc (h : heap) : nat * heap :=
  let a := fresh (dom h) in (a, <[a := []]> h).

(** [xs.append(x)] on the object at address [a]. *)
Definition append (a : nat) (x : pystr) (h : heap) : heap :=
  alter (fun xs => xs ++ [x]) a h.

Definition read (a : nat) (h : heap) : list pystr :=
  default [] (h !! a).

Record frame := Frame {
  summary : pystr;
  highlights : nat;
  what_to_do : nat;
  important_dates : nat;
  email_prompt : option pystr;
  current_section : option section
}.

Definition set_section (sec : section) (fr : frame) : frame :=
  Frame (summary fr) (highlights fr) (what_to_do fr) (important_dates fr)
    (email_prompt fr) (Some sec).

Definition set_summary (line : pystr) (fr : frame) : frame :=
  Frame line (highlights fr) (what_to_do fr) (important_dates fr)
    (email_prompt fr) (current_section fr).

Definition set_email_prompt (line : pystr) (fr : frame) : frame :=
  Frame (summary fr) (highlights fr) (what_to_do fr) (important_dates fr)
    (Some line) (current_section fr).

Definition dispatch (fr : frame) (h : heap) (line : pystr) : frame * heap :=
  if contains (marker Summary) line then (set_section Summary fr, h)
  else if contains (marker Highlights) line then (set_section Highlights fr, h)
  else if contains (marker WhatToDo) line then (set_section WhatToDo fr, h)
  else if contains (marker ImportantDates) line then
    (set_section ImportantDates fr, h)
  else if contains (marker EmailPrompt) line then
    (set_section EmailPrompt fr, h)
  else if startswith line (str "- ")
          && in_list_sections (current_section fr) then
    let content := strip (drop 2 line) in
    if is_section (current_section fr) Highlights then
      (fr, append (highlights fr) content h)
    else if is_section (current_section fr) WhatToDo then
      (fr, append (what_to_do fr) content h)
    else if is_section (current_section fr) ImportantDates then
      (fr, append (important_dates fr) content h)
    else (fr, h)
  else if is_section (current_section fr) Summary
          && negb (falsy line) && negb (startswith line (str "**")) then
    (set_summary line fr, h)
  else if is_section (current_section fr) EmailPrompt
          && negb (falsy line) && negb (startswith line (str "**")) then
    (set_email_prompt line fr, h)
  else (fr, h).

Definition step (s : frame * heap) (raw : pystr) : frame * heap :=
  let line := strip raw in
  if falsy line then s else dispatch (fst s) (snd s) line.

Definition parse_ai_response (response_text : pystr) (h : heap)
    : option AnalysisResponse.t * heap :=
  let lines := split NEWLINE response_text in
  let '(highlights, h1) := alloc h in
  let '(what_to_do, h2) := alloc h1 in
  let '(important_dates, h3) := alloc h2 in
  let fr := Frame [] highlights what_to_do important_dates None None in
  let '(fr', h') := fold_left step lines (fr, h3) in
  (AnalysisResponse_init
     (PyStr (summary fr'))
     (PyList (map PyStr (read (Store.highlights fr') h')))
     (PyList (map PyStr (read (Store.what_to_do fr') h')))
     (PyList (map PyStr (read (Store.important_dates fr') h')))
     (inject_opt (email_prompt fr')),
   h').

End Store.

(** The frame and the heap hold what the local variables of the pure
    model hold, in three distinct objects. *)
Definition represents (s : Store.frame * Store.heap) (st : locals) : Prop :=
  let '(fr, h) := s in
  Store.summary fr = summary st
  /\ h !! Store.highlights fr = Some (highlights st)
  /\ h !! Store.what_to_do fr = Some (what_to_do st)
  /\ h !! Store.important_dates fr = Some (important_dates st)
  /\ Store.email_prompt fr = email_prompt st
  /\ Store.current_section fr = current_section st
  /\ Store.highlights fr <> Store.what_to_do fr
  /\ Store.highlights fr <> Store.important_dates fr
  /\ Store.what_to_do fr <> Store.important_dates fr.

(** The objects of [h] are in [h'] as they were. *)
Definition preserves (h h' : Store.heap) : Prop :=
  forall a xs, h !! a = Some xs -> h' !! a = Some xs.

(** The second state has the lists of the first at the same addresses,
    and every object outside them as it was. *)
Definition same_objects (s s' : Store.frame * Store.heap) : Prop :=
  Store.highlights (fst s') = Store.highlights (fst s)
  /\ Store.what_to_do (fst s') = Store.what_to_do (fst s)
  /\ Store.important_dates (fst s') = Store.important_dates (fst s)
  /\ forall a, a <> Store.highlights (fst s) -> a <> Store.what_to_do (fst s) ->
         a <> Store.important_dates (fst s) -> snd s' !! a = snd s !! a.

(** The record the constructor builds from the final local variables. *)
Definition result_of (st : locals) : AnalysisResponse.t :=
  AnalysisResponse.mk (summary st) (highlights st) (what_to_do st)
    (important_dates st) (email_prompt st).

(** All fields at their defaults. *)
Definition default_response : AnalysisResponse.t :=
  AnalysisResponse.mk [] [] [] [] None.

(** Two lines of a source literal, joined by a newline. *)
Definition nl (a b : string) : string := a ++ String "010"%char b.

(** ** The endpoint [analyze_letter]

    The endpoint reads the upload, the environment and the network; the
    model takes what they answer as the [world] of one invocation and
    returns, with the outcome, the requests it sent.  The functions of
    the Python libraries that the endpoint calls on its data, and the
    text of the system prompt, are the [runtime]. *)

Inductive pykey := KeyStr (s : pystr) | KeyInt (i : Z).

(** The values [response.json()] returns.  The items of a dictionary are
    listed with distinct keys. *)
#[warnings="-register-all"]
Inductive pyobj :=
| ObjNone
| ObjBool (b : bool)
| ObjNum (literal : pystr)
| ObjStr (s : pystr)
| ObjList (items : list pyobj)
| ObjDict (items : list (pystr * pyobj)).

Inductive exn :=
| HTTPException (status_code : Z) (detail : pystr)
| KeyError (key : pykey)
| IndexError (operand : pyobj)
| TypeError (operand : pyobj) (key : pykey)
| AttributeError (operand : pyobj)
| ValidationError
| Raised (what : pystr).

Definition bind {A B : Type} (m : exn + A) (k : A -> exn + B) : exn + B :=
  match m with
  | inl e => inl e
  | inr a => k a
  end.

Fixpoint lookup_key (k : pystr) (items : list (pystr * pyobj)) : option pyobj :=
  match items with
  | [] => None
  | (k', v) :: rest => if bool_decide (k' = k) then Some v else lookup_key k rest
  end.

(** The position an index selects in a sequence of length [n], counted
    from the end when negative. *)
Definition index_of (i : Z) (n : nat) : option nat :=
  let j := (if i <? 0 then i + Z.of_nat n else i)%Z in
  if ((0 <=? j) && (j <? Z.of_nat n))%Z then Some (Z.to_nat j) else None.

(** [o[k]] *)
Definition getitem (o : pyobj) (k : pykey) : exn + pyobj :=
  match o, k with
  | ObjDict items, KeyStr s =>
      match lookup_key s items with
      | Some v => inr v
      | None => inl (KeyError k)
      end
  | ObjDict _, KeyInt _ => inl (KeyError k)
  | ObjList items, KeyInt i =>
      match index_of i (length items) ≫= (fun j => items !! j) with
      | Some v => inr v
      | None => inl (IndexError o)
      end
  | ObjStr s, KeyInt i =>
      match index_of i (length s) ≫= (fun j => s !! j) with
      | Some c => inr (ObjStr [c])
      | None => inl (IndexError o)
      end
  | _, _ => inl (TypeError o k)
  end.

Module requests.

Record Request := mkRequest {
  url : pystr;
  headers : list (pystr * pystr);
  data : pystr
}.

Record Response := mkResponse {
  status_code : Z;
  text : pystr;
  json : exn + pyobj
}.

End requests.

(** The body of the request, before [json.dumps]. *)
Record payload := Payload {
  model : pystr;
  system_content : pystr;
  user_text : pystr;
  image_url : pystr
}.

Record runtime := Runtime {
  exn_str : exn -> pystr;
  b64encode : list N -> pystr;
  json_dumps : payload -> pystr;
  SYSTEM_PROMPT : pystr
}.

Record world := World {
  file_read : exn + list N;
  file_content_type : option pystr;
  os_getenv : pystr -> option pystr;
  requests_post : requests.Request -> exn + requests.Response
}.

(** [str(x)] of a string or [None], as an f-string formats it. *)
Definition format_opt (o : option pystr) : pystr :=
  match o with Some s => s | None => str "None" end.

(** The truth value of [os.getenv(...)]. *)
Definition truthy (o : option pystr) : bool :=
  match o with Some (_ :: _) => true | _ => false end.

Definition build_request (py : runtime) (w : world)
    (contents : list N) (api_key : pystr) : requests.Request :=
  let base64_image := b64encode py contents in
  let data_url :=
    str "data:" ++ format_opt (file_content_type w) ++ str ";base64,"
    ++ base64_image in
  requests.mkRequest
    (str "https://openrouter.ai/api/v1/chat/completions")
    [(str "Authorization", str "Bearer " ++ api_key);
     (str "Content-Type", str "application/json");
     (str "HTTP-Referer",
      default (str "https://letter-analyzer.vercel.app")
        (os_getenv w (str "OPENROUTER_SITE_URL")));
     (str "X-Title",
      default (str "Letter Analyzer") (os_getenv w (str "OPENROUTER_SITE_NAME")))]
    (json_dumps py
       (Payload (str "mistralai/mistral-small-3.2-24b-instruct:free")
          (SYSTEM_PROMPT py)
          (str "Please analyze this letter and give a clear summary, important info, and actions needed.")
          data_url)).

(** [response.json()["choices"][0]["message"]["content"]] *)
Definition message_content (j : pyobj) : exn + pyobj :=
  bind (getitem j (KeyStr (str "choices"))) (fun choices =>
  bind (getitem choices (KeyInt 0)) (fun choice =>
  bind (getitem choice (KeyStr (str "message"))) (fun message =>
  getitem message (KeyStr (str "content"))))).

(** [parse_ai_response(message)] on whatever the reply held: only a
    string has [split]. *)
Definition parse_message (message : pyobj) : exn + AnalysisResponse.t :=
  match message with
  | ObjStr s =>
      match parse_ai_response s with
      | Some r => inr r
      | None => inl ValidationError
      end
  | _ => inl (AttributeError message)
  end.

(** The [try] block: its outcome and the requests sent. *)
Definition try_block (py : runtime) (w : world)
    : (exn + AnalysisResponse.t) * list requests.Request :=
  match file_read w with
  | inl e => (inl e, [])
  | inr contents =>
      let api_key := os_getenv w (str "OPENROUTER_API_KEY") in
      if negb (truthy api_key) then
        (inl (HTTPException 500 (str "OpenRouter API key not configured")), [])
      else
        let request := build_request py w contents (default [] api_key) in
        match requests_post w request with
        | inl e => (inl e, [request])
        | inr response =>
            (if (requests.status_code response =? 200)%Z then
               bind (requests.json response) (fun j =>
               bind (message_content j) parse_message)
             else
               inl (HTTPException (requests.status_code response)
                      (str "OpenRouter API error: " ++ requests.text response)),
             [request])
        end
  end.

(** The endpoint: the [try] block under its [except Exception]. *)
Definition analyze_letter (py : runtime) (w : world)
    : (exn + AnalysisResponse.t) * list requests.Request :=
  let '(outcome, sent) := try_block py w in
  (match outcome with
   | inl e =>
       inl (HTTPException 500 (str "Error analyzing letter: " ++ exn_str py e))
   | inr r => inr r
   end,
   sent).

(** ** Vocabulary of the statements *)

Definition all_sections : list section :=
  [Summary; Highlights; WhatToDo; ImportantDates; EmailPrompt].

(** Position of a section in the order the [if]/[elif] chain tests the
    markers. *)
Definition rank (sec : section) : nat :=
  match sec with
  | Summary => 0 | Highlights => 1 | WhatToDo => 2
  | ImportantDates => 3 | EmailPrompt => 4
  end%nat.

(** The line contains one of the five markers. *)
Definition is_header (line : pystr) : bool :=
  existsb (fun sec => contains (marker sec) line) all_sections.

(** [sub] occurs in [s] as a contiguous block. *)
Definition substring (sub s : pystr) : Prop :=
  exists pre post, s = pre ++ sub ++ post.

(** Non-empty, and neither the first nor the last character is
    whitespace. *)
Definition is_clean (s : pystr) : bool :=
  match s, last s with
  | c :: _, Some d => negb (isspace c) && negb (isspace d)
  | _, _ => false
  end.

(** The section a header line selects: the first marker found, in the
    order of the [if]/[elif] chain. *)
Definition header_of (line : pystr) : option section :=
  List.find (fun sec => contains (marker sec) line) all_sections.

(** The rules of the chain that follow the five header tests. *)
Definition on_content (st : locals) (line : pystr) : locals :=
  if startswith line (str "- ") && in_list_sections (current_section st) then
    match current_section st with
    | Some sec => append_to sec (strip (drop 2 line)) st
    | None => st
    end
  else if is_section (current_section st) Summary
          && negb (falsy line) && negb (startswith line (str "**")) then
    set_summary line st
  else if is_section (current_section st) EmailPrompt
          && negb (falsy line) && negb (startswith line (str "**")) then
    set_email_prompt line st
  else st.

(** A raw line that is a bullet item: stripped, it begins with the
    marker and holds no header marker. *)
Definition is_bullet (raw : pystr) : bool :=
  startswith (strip raw) (str "- ") && negb (is_header (strip raw)).

(** The text a bullet item adds to its list. *)
Definition bullet_content (raw : pystr) : pystr :=
  strip (drop 2 (strip raw)).

(** A raw line that the Summary and Email Prompt sections keep: not
    blank, no header marker, no leading bold token. *)
Definition qualifying (raw : pystr) : bool :=
  negb (falsy (strip raw)) && negb (is_header (strip raw))
  && negb (startswith (strip raw) (str "**")).

(** A raw line that those two sections skip without leaving them. *)
Definition skipped (raw : pystr) : bool :=
  negb (is_header (strip raw))
  && (falsy (strip raw) || startswith (strip raw) (str "**")).

(** The list a list section collects. *)
Definition items (sec : section) (st : locals) : list pystr :=
  match sec with
  | Highlights => highlights st
  | WhatToDo => what_to_do st
  | ImportantDates => important_dates st
  | _ => []
  end.

(** The field of section [sec] is the same in both states. *)
Definition untouched (sec : section) (st st' : locals) : Prop :=
  match sec with
  | Summary => summary st' = summary st
  | Highlights => highlights st' = highlights st
  | WhatToDo => what_to_do st' = what_to_do st
  | ImportantDates => important_dates st' = important_dates st
  | EmailPrompt => email_prompt st' = email_prompt st
  end.

(** The five result fields are the same in both states. *)
Definition same_fields (st st' : locals) : Prop :=
  result_of st' = result_of st.

(** Every stored string is clean. *)
Definition clean_state (st : locals) : Prop :=
  Forall (fun s => is_clean s = true) (highlights st)
  /\ Forall (fun s => is_clean s = true) (what_to_do st)
  /\ Forall (fun s => is_clean s = true) (important_dates st)
  /\ (summary st <> [] -> is_clean (summary st) = true)
  /\ (forall e, email_prompt st = Some e -> is_clean e = true).

(** The field of section [sec] holds its default. *)
Definition at_default (sec : section) (r : AnalysisResponse.t) : Prop :=
  match sec with
  | Summary => AnalysisResponse.summary r = []
  | Highlights => AnalysisResponse.highlights r = []
  | WhatToDo => AnalysisResponse.what_to_do r = []
  | ImportantDates => AnalysisResponse.important_dates r = []
  | EmailPrompt => AnalysisResponse.email_prompt r = None
  end.

(** ** Vocabulary of the further statements *)

(** The strings a state holds: [Pt] holds of the summary, unless it is
    still the default, and of the email prompt; [Pi] holds of every item
    of the three lists. *)
Definition all_stored (Pt Pi : pystr -> Prop) (st : locals) : Prop :=
  (summary st <> [] -> Pt (summary st))
  /\ (forall e, email_prompt st = Some e -> Pt e)
  /\ Forall Pi (highlights st)
  /\ Forall Pi (what_to_do st)
  /\ Forall Pi (important_dates st).

(** The same, of a response. *)
Definition all_fields (Pt Pi : pystr -> Prop) (r : AnalysisResponse.t) : Prop :=
  (AnalysisResponse.summary r <> [] -> Pt (AnalysisResponse.summary r))
  /\ (forall e, AnalysisResponse.email_prompt r = Some e -> Pt e)
  /\ Forall Pi (AnalysisResponse.highlights r)
  /\ Forall Pi (AnalysisResponse.what_to_do r)
  /\ Forall Pi (AnalysisResponse.important_dates r).

(** The number of items the three lists hold. *)
Definition item_count (st : locals) : nat :=
  length (highlights st) + length (what_to_do st) + length (important_dates st).

(** The raw line begins, once stripped, with the bullet marker. *)
Definition bulleted (raw : pystr) : bool :=
  startswith (strip raw) (str "- ").

(** A string fit to be a list item: clean, on one line, free of header
    markers. *)
Definition item_ok (s : pystr) : Prop :=
  is_clean s = true /\ (NEWLINE ∉ s) /\ is_header s = false.

(** A string fit to be the summary or the email prompt: as an item, and
    not beginning with the bold token. *)
Definition text_ok (s : pystr) : Prop :=
  item_ok s /\ startswith s (str "**") = false.

(** The second state holds what the first holds and possibly more: the
    lists are extended at the end, a summary or an email prompt once
    present stays present. *)
Definition grows (st st' : locals) : Prop :=
  highlights st `prefix_of` highlights st'
  /\ what_to_do st `prefix_of` what_to_do st'
  /\ important_dates st `prefix_of` important_dates st'
  /\ (summary st <> [] -> summary st' <> [])
  /\ (email_prompt st <> None -> email_prompt st' <> None).

(** The text with every line feed preceded by a carriage return, as a
    reply with CRLF line ends has it. *)
Definition crlf (text : pystr) : pystr :=
  flat_map (fun c => if c =? NEWLINE then [0x0D; NEWLINE] else [c]) text.

(** ** Replies in the layout the prompt asks for

    The system prompt of [analyze_letter] lays a reply out as sections:
    a header line, then the body, one line per item, then a blank line;
    list items are bulleted, and some lines end in two spaces. *)

(** A section of a reply: the section it is headed by and its body, the
    items of a list section or the lines of a text section. *)
Definition block : Type := section * list pystr.

(** The line of a body string: bulleted in a list section. *)
Definition body_line (sec : section) (s : pystr) : pystr :=
  if in_list_sections (Some sec) then str "- " ++ s else s.

(** The lines of a block, bare: the marker, then the body. *)
Definition block_lines (b : block) : list pystr :=
  marker (fst b) :: map (body_line (fst b)) (snd b).

(** The body strings of the blocks headed by [sec], in order. *)
Definition bodies (sec : section) (blocks : list block) : list pystr :=
  concat (map snd (List.filter (fun b => section_eqb (fst b) sec) blocks)).

Definition block_ok (b : block) : Prop :=
  Forall (fun s => if in_list_sections (Some (fst b)) then item_ok s else text_ok s)
    (snd b).

(** The lines as the loop reads them: stripped, the blank ones left
    out. *)
Definition significant (lines : list pystr) : list pystr :=
  List.filter (fun l => negb (falsy l)) (map strip lines).

(** The state after a block. *)
Definition after_block (st : locals) (b : block) : locals :=
  let body := snd b in
  match fst b with
  | Summary =>
      Locals (default (summary st) (last body)) (highlights st) (what_to_do st)
        (important_dates st) (email_prompt st) (Some Summary)
  | Highlights =>
      Locals (summary st) (highlights st ++ body) (what_to_do st)
        (important_dates st) (email_prompt st) (Some Highlights)
  | WhatToDo =>
      Locals (summary st) (highlights st) (what_to_do st ++ body)
        (important_dates st) (email_prompt st) (Some WhatToDo)
  | ImportantDates =>
      Locals (summary st) (highlights st) (what_to_do st)
        (important_dates st ++ body) (email_prompt st) (Some ImportantDates)
  | EmailPrompt =>
      Locals (summary st) (highlights st) (what_to_do st) (important_dates st)
        (match last body with Some e => Some e | None => email_prompt st end)
        (Some EmailPrompt)
  end.

(** [sep.join(lines)] *)
Fixpoint join (sep : char) (lines : list pystr) : pystr :=
  match lines with
  | [] => []
  | l :: ls => match ls with [] => l | _ :: _ => l ++ sep :: join sep ls end
  end.

(** A body line as the template of the prompt writes it: the items of
    Highlights and What To Do end in two spaces. *)
Definition layout_line (sec : section) (s : pystr) : pystr :=
  match sec with
  | Highlights | WhatToDo => body_line sec s ++ str "  "
  | _ => body_line sec s
  end.

(** A section as the template writes it, left out when it has no body:
    the header ending in two spaces, the body, a blank line. *)
Definition section_text (sec : section) (body : list pystr) : list pystr :=
  match body with
  | [] => []
  | _ :: _ => (marker sec ++ str "  ") :: map (layout_line sec) body ++ [[]]
  end.

Definition section_block (sec : section) (body : list pystr) : list block :=
  match body with [] => [] | _ :: _ => [(sec, body)] end.

(** The body of the Summary section of a response: none for the default
    summary. *)
Definition summary_body (r : AnalysisResponse.t) : list pystr :=
  match AnalysisResponse.summary r with [] => [] | s => [s] end.

(** The reply that states a response in the layout of the prompt. *)
Definition render (r : AnalysisResponse.t) : pystr :=
  join NEWLINE
    (section_text Summary (summary_body r)
     ++ section_text Highlights (AnalysisResponse.highlights r)
     ++ section_text WhatToDo (AnalysisResponse.what_to_do r)
     ++ section_text ImportantDates (AnalysisResponse.important_dates r)
     ++ section_text EmailPrompt (option_list (AnalysisResponse.email_prompt r))).

Definition blocks_of (r : AnalysisResponse.t) : list block :=
  section_block Summary (summary_body r)
  ++ section_block Highlights (AnalysisResponse.highlights r)
  ++ section_block WhatToDo (AnalysisResponse.what_to_do r)
  ++ section_block ImportantDates (AnalysisResponse.important_dates r)
  ++ section_block EmailPrompt (option_list (AnalysisResponse.email_prompt r)).

(** ** Facts about the string operations *)

Section StringFacts.

Lemma startswith_spec s prefix :
  startswith s prefix = true <-> exists rest, s = prefix ++ rest.
Proof.
  revert s; induction prefix as [|p prefix IH]; intros s; simpl.
  - split; eauto.
  - destruct s as [|c s]; simpl.
    + split; [discriminate | intros [rest H]; discriminate].
    + rewrite andb_true_iff, N.eqb_eq, IH. split.
      * intros [-> [rest ->]]. eauto.
      * intros [rest H]. injection H as -> ->. eauto.
Qed.

Lemma contains_spec sub s :
  contains sub s = true <-> substring sub s.
Proof.
  unfold substring. induction s as [|c s IH]; simpl.
  - rewrite orb_false_r, startswith_spec. split.
    + intros [rest H]. exists [], rest. exact H.
    + intros [pre [post H]]. destruct pre; simpl in H; [eauto|discriminate].
  - rewrite orb_true_iff, IH, (startswith_spec (c :: s) sub). split.
    + intros [[rest H] | [pre [post H]]].
      * exists [], rest. exact H.
      * exists (c :: pre), post. simpl. congruence.
    + intros [[|c' pre] [post H]]; simpl in H.
      * left. eauto.
      * right. injection H as _ ->. eauto.
Qed.

Lemma substring_trans a b c : substring a b -> substring b c -> substring a c.
Proof.
  intros [p1 [q1 ->]] [p2 [q2 ->]].
  exists (p2 ++ p1), (q1 ++ q2). by rewrite <- !app_assoc.
Qed.

Lemma contains_mono sub a b :
  substring a b -> contains sub a = true -> contains sub b = true.
Proof.
  rewrite !contains_spec. intros Hab Hsa. eapply substring_trans; eauto.
Qed.

Lemma contains_mono_false sub a b :
  substring a b -> contains sub b = false -> contains sub a = false.
Proof.
  intros Hab Hb. destruct (contains sub a) eqn:E; [|done].
  by rewrite (contains_mono _ _ _ Hab E) in Hb.
Qed.

(** *** Stripping *)

Lemma lstrip_suffix s : exists pre, s = pre ++ lstrip s.
Proof.
  induction s as [|c s [pre IH]]; simpl.
  - by exists [].
  - destruct (isspace c).
    + exists (c :: pre). simpl. congruence.
    + by exists [].
Qed.

Lemma rstrip_prefix s : exists post, s = rstrip s ++ post.
Proof.
  induction s as [|c s [post IH]]; simpl.
  - by exists [].
  - destruct (rstrip s) as [|d r] eqn:E.
    + destruct (isspace c).
      * by exists (c :: s).
      * exists post. simpl in *. congruence.
    + exists post. simpl in *. congruence.
Qed.

Lemma strip_substring s : substring (strip s) s.
Proof.
  unfold strip. destruct (lstrip_suffix s) as [pre Hpre].
  destruct (rstrip_prefix (lstrip s)) as [post Hpost].
  exists pre, post. congruence.
Qed.

Lemma lstrip_head s c r : lstrip s = c :: r -> isspace c = false.
Proof.
  induction s as [|a s IH]; simpl; [done|].
  destruct (isspace a) eqn:E; [done|]. by intros [= <- _].
Qed.

Lemma rstrip_head s c r : rstrip s = c :: r -> exists s', s = c :: s'.
Proof.
  destruct s as [|a s]; simpl; [done|].
  destruct (rstrip s); [destruct (isspace a)|]; intros [= <- _]; eauto.
Qed.

Lemma rstrip_last s d : last (rstrip s) = Some d -> isspace d = false.
Proof.
  induction s as [|a s IH]; simpl; [done|].
  destruct (rstrip s) as [|b r] eqn:E.
  - destruct (isspace a) eqn:Ea; simpl; [done|]. by intros [= <-].
  - simpl. exact IH.
Qed.

Lemma last_is_Some (s : pystr) : s <> [] -> is_Some (last s).
Proof.
  induction s as [|a [|b s] IH]; [done|eauto|].
  intros _. apply IH. done.
Qed.

Lemma strip_clean s : strip s <> [] -> is_clean (strip s) = true.
Proof.
  unfold strip, is_clean. intros Hne.
  destruct (rstrip (lstrip s)) as [|c r] eqn:E; [done|].
  destruct (rstrip_head _ _ _ E) as [s' Hs'].
  pose proof (lstrip_head _ _ _ Hs') as Hc.
  destruct (last_is_Some (c :: r)) as [d Hd]; [done|].
  rewrite Hd. rewrite <- E in Hd. apply rstrip_last in Hd.
  by rewrite Hc, Hd.
Qed.

Lemma lstrip_app_keep pre c rest :
  isspace c = false -> exists pre', lstrip (pre ++ c :: rest) = pre' ++ c :: rest.
Proof.
  intros Hc. induction pre as [|a pre [pre' IH]]; simpl.
  - exists []. by rewrite Hc.
  - destruct (isspace a); [eauto|]. by exists (a :: pre).
Qed.

Lemma rstrip_app_keep pre d post :
  isspace d = false -> exists post', rstrip (pre ++ d :: post) = pre ++ d :: post'.
Proof.
  intros Hd. induction pre as [|a pre [post' IH]]; simpl.
  - destruct (rstrip post) as [|b r]; [exists []; by rewrite Hd | by exists (b :: r)].
  - rewrite IH. exists post'. by destruct pre.
Qed.

Lemma is_clean_inv s :
  is_clean s = true ->
  exists c d, isspace c = false /\ isspace d = false
              /\ (exists t, s = c :: t) /\ (exists t, s = t ++ [d]).
Proof.
  unfold is_clean. destruct s as [|c t]; [done|].
  destruct (last (c :: t)) as [d|] eqn:E; [|done].
  rewrite andb_true_iff, !negb_true_iff. intros [Hc Hd].
  exists c, d. repeat split; eauto. by apply last_Some.
Qed.

(** A block that starts and ends with non-whitespace survives
    stripping. *)
Lemma substring_strip m raw :
  is_clean m = true -> substring m raw -> substring m (strip raw).
Proof.
  intros Hm [pre [post ->]].
  destruct (is_clean_inv _ Hm) as (c & d & Hc & Hd & [t Ht] & [t' Ht']).
  unfold strip.
  destruct (lstrip_app_keep pre c (t ++ post) Hc) as [pre' Hl].
  rewrite Ht. simpl. rewrite Hl.
  assert (c :: t ++ post = t' ++ d :: post) as ->.
  { change (c :: t ++ post) with ((c :: t) ++ post).
    rewrite <- Ht, Ht', <- app_assoc. done. }
  rewrite app_assoc.
  destruct (rstrip_app_keep (pre' ++ t') d post Hd) as [post' ->].
  exists pre', post'. rewrite <- Ht, Ht', <- !app_assoc. done.
Qed.

Lemma contains_strip m raw :
  is_clean m = true -> contains m raw = true -> contains m (strip raw) = true.
Proof. rewrite !contains_spec. apply substring_strip. Qed.

Lemma strip_contains m raw :
  contains m (strip raw) = true -> contains m raw = true.
Proof. apply contains_mono, strip_substring. Qed.

Lemma strip_nonempty s d t :
  s = t ++ [d] -> isspace d = false -> strip s <> [].
Proof.
  intros -> Hd. unfold strip.
  destruct (lstrip_app_keep t d [] Hd) as [pre' ->].
  destruct (rstrip_app_keep pre' d [] Hd) as [post' ->].
  by destruct pre'.
Qed.

(** What follows the bullet marker of a clean line strips to a clean
    string. *)
Lemma bullet_content_clean line :
  is_clean line = true -> startswith line (str "- ") = true ->
  is_clean (strip (drop 2 line)) = true.
Proof.
  intros Hline Hpre. apply startswith_spec in Hpre as [rest ->].
  change (drop 2 (str "- " ++ rest)) with rest.
  destruct (is_clean_inv _ Hline) as (c & d & _ & Hd & _ & [t Ht]).
  apply strip_clean. destruct (decide (rest = [])) as [->|Hne].
  - destruct t as [|a [|b [|? t]]]; simplify_eq/=.
  - destruct (proj1 (last_Some rest d)) as [t' Ht'].
    { change (str "- " ++ rest) with (45 :: 32 :: rest) in Ht.
      assert (last (45 :: 32 :: rest) = Some d) as Hl
          by (rewrite Ht; apply last_snoc).
      destruct rest; [done|]. exact Hl. }
    eapply strip_nonempty; eauto.
Qed.

(** *** Splitting *)

Lemma split_cons sep s :
  exists piece pieces rest, split sep s = piece :: pieces /\ s = piece ++ rest.
Proof.
  induction s as [|c s (piece & pieces & rest & IH & Hs)]; simpl.
  - by exists [], [], [].
  - destruct (c =? sep).
    + by exists [], (split sep s), (c :: s).
    + rewrite IH. exists (c :: piece), pieces, rest. simpl. by rewrite <- Hs.
Qed.

Lemma split_substring sep s line :
  line ∈ split sep s -> substring line s.
Proof.
  revert line. induction s as [|c s IH]; simpl; intros line Hin.
  - apply list_elem_of_singleton in Hin as ->. by exists [], [].
  - assert (forall l, substring l s -> substring l (c :: s)) as Hlift.
    { intros l [pre [post ->]]. by exists (c :: pre), post. }
    destruct (c =? sep).
    + apply elem_of_cons in Hin as [->|Hin]; [by exists [], (c :: s)|].
      by apply Hlift, IH.
    + destruct (split_cons sep s) as (piece & pieces & rest & E & Hs).
      rewrite E in Hin, IH.
      apply elem_of_cons in Hin as [->|Hin].
      * exists [], rest. simpl. by rewrite <- Hs.
      * apply Hlift, IH. by right.
Qed.

End StringFacts.

(** ** Facts about the parser *)

Section ParserFacts.

Lemma validate_list_str_map l :
  validate_list_str (PyList (map PyStr l)) = Some l.
Proof.
  simpl. induction l as [|a l IH]; [done|].
  simpl. rewrite IH. done.
Qed.

(** The constructor accepts what the loop hands to it. *)
Lemma parse_ai_response_unfold text :
  parse_ai_response text
  = Some (result_of (parse_lines init (split NEWLINE text))).
Proof.
  unfold parse_ai_response, AnalysisResponse_init.
  cbv zeta. rewrite !validate_list_str_map. simpl.
  unfold result_of. by destruct (email_prompt (parse_lines _ _)).
Qed.

Lemma marker_clean sec : is_clean (marker sec) = true.
Proof. by destruct sec; vm_compute. Qed.

Lemma header_of_Some line sec :
  header_of line = Some sec <->
  contains (marker sec) line = true
  /\ forall s, (rank s < rank sec)%nat -> contains (marker s) line = false.
Proof.
  unfold header_of, all_sections, List.find.
  destruct (contains (marker Summary) line) eqn:E1,
           (contains (marker Highlights) line) eqn:E2,
           (contains (marker WhatToDo) line) eqn:E3,
           (contains (marker ImportantDates) line) eqn:E4,
           (contains (marker EmailPrompt) line) eqn:E5.
  all: split;
    [ intros [= <-]; (split; [done|]); intros []; simpl; (done || lia)
    | intros [Hin Hlow];
      pose proof (Hlow Summary) as L1; pose proof (Hlow Highlights) as L2;
      pose proof (Hlow WhatToDo) as L3; pose proof (Hlow ImportantDates) as L4;
      destruct sec; simpl in L1, L2, L3, L4;
      first [ congruence
            | specialize (L1 ltac:(lia)); congruence
            | specialize (L2 ltac:(lia)); congruence
            | specialize (L3 ltac:(lia)); congruence
            | specialize (L4 ltac:(lia)); congruence ] ].
Qed.

Lemma header_of_None line :
  header_of line = None <-> forall s, contains (marker s) line = false.
Proof.
  unfold header_of, all_sections. simpl. split.
  - intros H.
    repeat match type of H with
           | (if ?b then _ else _) = _ => destruct b eqn:?
           end; simplify_eq. by intros [].
  - intros H.
    by rewrite (H Summary), (H Highlights), (H WhatToDo),
      (H ImportantDates), (H EmailPrompt).
Qed.

Lemma is_header_of line :
  is_header line = match header_of line with Some _ => true | None => false end.
Proof.
  unfold is_header, header_of.
  induction all_sections as [|sec l IH]; simpl; [done|].
  by destruct (contains (marker sec) line).
Qed.

Lemma is_header_false line :
  is_header line = false <-> header_of line = None.
Proof. rewrite is_header_of. by destruct (header_of line). Qed.

Lemma dispatch_header st line sec :
  header_of line = Some sec -> dispatch st line = set_section sec st.
Proof.
  intros [Hin Hlow]%header_of_Some. unfold dispatch.
  destruct sec;
    rewrite ?(Hlow Summary) by (simpl; lia);
    rewrite ?(Hlow Highlights) by (simpl; lia);
    rewrite ?(Hlow WhatToDo) by (simpl; lia);
    rewrite ?(Hlow ImportantDates) by (simpl; lia);
    by rewrite Hin.
Qed.

Lemma dispatch_content st line :
  header_of line = None -> dispatch st line = on_content st line.
Proof.
  intros H. unfold dispatch, on_content.
  by rewrite !(proj1 (header_of_None line) H).
Qed.

Lemma header_nonempty line sec : header_of line = Some sec -> falsy line = false.
Proof. by destruct line, sec. Qed.

Lemma step_header st raw sec :
  header_of (strip raw) = Some sec -> step st raw = set_section sec st.
Proof.
  intros H. unfold step. cbv zeta.
  rewrite (header_nonempty _ _ H). by apply dispatch_header.
Qed.

Lemma step_content st raw :
  header_of (strip raw) = None ->
  step st raw = if falsy (strip raw) then st else on_content st (strip raw).
Proof.
  intros H. unfold step. cbv zeta.
  destruct (falsy (strip raw)); [done|]. by apply dispatch_content.
Qed.

(** *** What a content line may change *)

Lemma on_content_section st line :
  current_section (on_content st line) = current_section st.
Proof.
  unfold on_content.
  destruct (startswith line (str "- ")), (falsy line),
    (startswith line (str "**")), st as [? ? ? ? ? [[]|]]; done.
Qed.

Lemma on_content_untouched st line sec :
  current_section st <> Some sec -> untouched sec st (on_content st line).
Proof.
  unfold on_content.
  destruct (startswith line (str "- ")), (falsy line),
    (startswith line (str "**")), st as [? ? ? ? ? [[]|]], sec; done.
Qed.

Lemma untouched_refl sec st : untouched sec st st.
Proof. by destruct sec. Qed.

Lemma untouched_trans sec a b c :
  untouched sec a b -> untouched sec b c -> untouched sec a c.
Proof. destruct sec; simpl; congruence. Qed.

Lemma step_untouched st raw sec :
  current_section st <> Some sec -> header_of (strip raw) <> Some sec ->
  untouched sec st (step st raw) /\ current_section (step st raw) <> Some sec.
Proof.
  intros Hcur Hhdr. destruct (header_of (strip raw)) as [s|] eqn:E.
  - rewrite (step_header _ _ _ E). split; [by destruct sec | done].
  - rewrite (step_content _ _ E). destruct (falsy (strip raw)).
    + split; [apply untouched_refl | done].
    + split; [by apply on_content_untouched | by rewrite on_content_section].
Qed.

(** A field stays as it is as long as its section is not entered. *)
Lemma parse_lines_untouched sec lines st :
  current_section st <> Some sec ->
  Forall (fun raw => header_of (strip raw) <> Some sec) lines ->
  untouched sec st (parse_lines st lines)
  /\ current_section (parse_lines st lines) <> Some sec.
Proof.
  revert st. induction lines as [|raw lines IH]; intros st Hcur Hall.
  - split; [apply untouched_refl | done].
  - apply Forall_cons in Hall as [Hraw Hall].
    destruct (step_untouched st raw sec Hcur Hraw) as [Hu Hc].
    destruct (IH (step st raw) Hc Hall) as [Hu' Hc'].
    split; [by eapply untouched_trans | done].
Qed.

Lemma no_marker_no_header sec raw :
  contains (marker sec) raw = false -> header_of (strip raw) <> Some sec.
Proof.
  intros Hno [Hin _]%header_of_Some.
  apply strip_contains in Hin. congruence.
Qed.

Lemma parse_lines_app st xs ys :
  parse_lines st (xs ++ ys) = parse_lines (parse_lines st xs) ys.
Proof. apply fold_left_app. Qed.

(** *** Stored strings are clean *)

Lemma on_content_clean st line :
  is_clean line = true -> clean_state st -> clean_state (on_content st line).
Proof.
  intros Hline (Hh & Hw & Hd & Hs & He). unfold on_content.
  destruct (startswith line (str "- ")) eqn:Hb.
  - pose proof (bullet_content_clean line Hline Hb) as Hc.
    destruct (falsy line), (startswith line (str "**")),
      st as [? ? ? ? ? [[]|]]; simpl in *;
      repeat split; try done;
      try (apply Forall_app; split; [done | by constructor]);
      by intros ? [= <-].
  - destruct (falsy line), (startswith line (str "**")),
      st as [? ? ? ? ? [[]|]]; simpl in *;
      repeat split; try done; by intros ? [= <-].
Qed.

Lemma step_clean st raw : clean_state st -> clean_state (step st raw).
Proof.
  intros Hst. destruct (header_of (strip raw)) as [s|] eqn:E.
  - by rewrite (step_header _ _ _ E).
  - rewrite (step_content _ _ E).
    destruct (strip raw) as [|c r] eqn:Hl; [done|]. simpl.
    apply on_content_clean; [|done].
    rewrite <- Hl. apply strip_clean. by rewrite Hl.
Qed.

Lemma parse_lines_clean lines st :
  clean_state st -> clean_state (parse_lines st lines).
Proof.
  revert st. induction lines as [|raw lines IH]; intros st Hst; [done|].
  apply IH, step_clean, Hst.
Qed.

(** *** Lines inside a section *)

Lemma parse_lines_section lines st :
  Forall (fun raw => is_header (strip raw) = false) lines ->
  current_section (parse_lines st lines) = current_section st.
Proof.
  revert st. induction lines as [|raw lines IH]; intros st Hall; [done|].
  apply Forall_cons in Hall as [Hraw%is_header_false Hall].
  simpl. rewrite (IH _ Hall), (step_content _ _ Hraw).
  destruct (falsy (strip raw)); [done | apply on_content_section].
Qed.

Lemma step_summary st raw :
  current_section st = Some Summary -> is_header (strip raw) = false ->
  step st raw = if qualifying raw then set_summary (strip raw) st else st.
Proof.
  intros Hcur Hhdr. rewrite step_content by by apply is_header_false.
  unfold qualifying, on_content. rewrite Hhdr, Hcur. simpl.
  rewrite andb_false_r, andb_true_r.
  by destruct (falsy (strip raw)), (startswith (strip raw) (str "**")).
Qed.

Lemma step_email_prompt st raw :
  current_section st = Some EmailPrompt -> is_header (strip raw) = false ->
  step st raw = if qualifying raw then set_email_prompt (strip raw) st else st.
Proof.
  intros Hcur Hhdr. rewrite step_content by by apply is_header_false.
  unfold qualifying, on_content. rewrite Hhdr, Hcur. simpl.
  rewrite andb_false_r, andb_true_r.
  by destruct (falsy (strip raw)), (startswith (strip raw) (str "**")).
Qed.

Lemma skipped_not_qualifying raw :
  skipped raw = true -> is_header (strip raw) = false /\ qualifying raw = false.
Proof.
  unfold skipped, qualifying.
  by destruct (is_header (strip raw)), (falsy (strip raw)),
    (startswith (strip raw) (str "**")).
Qed.

Lemma parse_lines_skipped lines st :
  current_section st = Some Summary \/ current_section st = Some EmailPrompt ->
  Forall (fun raw => skipped raw = true) lines ->
  parse_lines st lines = st.
Proof.
  intros Hcur Hall. induction Hall as [|raw lines Hraw _ IH]; [done|].
  apply skipped_not_qualifying in Hraw as [Hhdr Hq]. simpl.
  destruct Hcur as [Hcur|Hcur].
  - rewrite (step_summary _ _ Hcur Hhdr), Hq. exact IH.
  - rewrite (step_email_prompt _ _ Hcur Hhdr), Hq. exact IH.
Qed.

Lemma step_bullet st raw sec :
  in_list_sections (Some sec) = true -> current_section st = Some sec ->
  is_header (strip raw) = false ->
  step st raw
  = if is_bullet raw then append_to sec (bullet_content raw) st else st.
Proof.
  intros Hsec Hcur Hhdr. rewrite step_content by by apply is_header_false.
  unfold is_bullet, bullet_content, on_content. rewrite Hhdr, Hcur, Hsec.
  rewrite !andb_true_r.
  destruct (strip raw) as [|c r] eqn:E; [done|]. simpl falsy. cbv iota.
  destruct (startswith (c :: r) (str "- ")); [done|].
  by destruct sec.
Qed.

Lemma rstrip_id s t d : s = t ++ [d] -> isspace d = false -> rstrip s = s.
Proof.
  intros -> Hd. destruct (rstrip_prefix (t ++ [d])) as [post Hpost].
  destruct (rstrip_app_keep t d [] Hd) as [post' Hr].
  rewrite Hr in Hpost |- *. rewrite <- app_assoc in Hpost.
  apply app_inv_head in Hpost. injection Hpost as Hnil.
  symmetry in Hnil. by apply app_eq_nil in Hnil as [-> _].
Qed.

(** The line is stripped already, so stripping what follows the marker
    only removes whitespace in front. *)
Lemma bullet_content_lstrip raw :
  startswith (strip raw) (str "- ") = true ->
  bullet_content raw = lstrip (drop 2 (strip raw)).
Proof.
  intros Hb. unfold bullet_content.
  assert (is_clean (strip raw) = true) as Hclean.
  { apply strip_clean. by destruct (strip raw). }
  remember (strip raw) as line eqn:Hline. clear Hline.
  apply startswith_spec in Hb as [rest ->].
  change (drop 2 (str "- " ++ rest)) with rest.
  apply is_clean_inv in Hclean as (c & d & _ & Hd & _ & [t Ht]).
  unfold strip. destruct (lstrip_suffix rest) as [pre Hpre].
  destruct (lstrip rest) as [|x xs] eqn:E; [done|].
  assert (last (x :: xs) = Some d) as [t' Ht']%last_Some.
  { rewrite <- (last_app_cons (str "- " ++ pre)), <- app_assoc, <- Hpre, Ht.
    apply last_snoc. }
  by apply (rstrip_id _ t' d).
Qed.

Lemma items_append_to sec c st :
  in_list_sections (Some sec) = true ->
  items sec (append_to sec c st) = items sec st ++ [c]
  /\ current_section (append_to sec c st) = current_section st
  /\ forall s, s <> sec -> untouched s st (append_to sec c st).
Proof. destruct sec; try done; (repeat split; [done..|]); by intros []. Qed.

(** The bullet items of a run of lines inside a list section are
    collected in order. *)
Lemma parse_lines_bullets sec raws st :
  in_list_sections (Some sec) = true -> current_section st = Some sec ->
  Forall (fun raw => is_header (strip raw) = false) raws ->
  items sec (parse_lines st raws)
  = items sec st ++ map bullet_content (List.filter is_bullet raws)
  /\ forall s, s <> sec -> untouched s st (parse_lines st raws).
Proof.
  intros Hsec. revert st.
  induction raws as [|raw raws IH]; intros st Hcur Hall; simpl.
  - rewrite app_nil_r. split; [done|]. intros. apply untouched_refl.
  - apply Forall_cons in Hall as [Hraw Hall].
    rewrite (step_bullet _ _ _ Hsec Hcur Hraw).
    destruct (is_bullet raw); [|by apply IH].
    destruct (items_append_to sec (bullet_content raw) st Hsec)
      as (Hi & Hc & Hu).
    destruct (IH (append_to sec (bullet_content raw) st)) as [IHi IHu];
      [congruence | done |].
    split.
    + change (fold_left step raws ?x) with (parse_lines x raws).
      rewrite IHi, Hi, <- app_assoc. done.
    + intros s Hs. eapply untouched_trans; [by apply Hu | by apply IHu].
Qed.

Lemma bullet_not_bold line :
  startswith line (str "- ") = true ->
  startswith line (str "**") = false /\ falsy line = false.
Proof. intros [rest ->]%startswith_spec. done. Qed.

End ParserFacts.

(** ** The store model computes what the pure model computes *)

Section StoreFacts.

Lemma step_represents s st raw :
  represents s st ->
  represents (Store.step s raw) (step st raw)
  /\ same_objects s (Store.step s raw).
Proof.
  destruct s as [[s1 a1 a2 a3 e1 c1] h], st as [s0 hl wl dl e0 cur].
  intros (Hs & Hh & Hw & Hd & He & Hc & N1 & N2 & N3). simpl in *. subst.
  unfold Store.step, step. cbv zeta.
  simpl fst. simpl snd. unfold Store.dispatch, dispatch.
  destruct (falsy (strip raw)); [by repeat split|].
  repeat match goal with
         | |- context [if contains ?m ?l then _ else _] =>
             destruct (contains m l); [by repeat split|]
         end.
  destruct (startswith (strip raw) (str "- ")),
    (startswith (strip raw) (str "**")), cur as [[]|];
    simpl; try (by repeat split).
  all: unfold Store.append; split;
    [ repeat split; try done;
      first [ by rewrite lookup_alter_eq, ?Hh, ?Hw, ?Hd
            | by rewrite lookup_alter_ne ]
    | repeat split; intros a ? ? ?; simpl; by rewrite lookup_alter_ne ].
Qed.

Lemma same_objects_trans a b c :
  same_objects a b -> same_objects b c -> same_objects a c.
Proof.
  intros (H1 & H2 & H3 & H4) (K1 & K2 & K3 & K4).
  repeat split; try congruence.
  intros x ? ? ?. rewrite K4, H4; congruence.
Qed.

Lemma run_represents lines s st :
  represents s st ->
  represents (fold_left Store.step lines s) (parse_lines st lines)
  /\ same_objects s (fold_left Store.step lines s).
Proof.
  revert s st. induction lines as [|raw lines IH]; intros s st Hr.
  - by repeat split.
  - destruct (step_represents s st raw Hr) as [Hr' Ho].
    destruct (IH _ _ Hr') as [Hr'' Ho']. simpl.
    split; [done|]. by eapply same_objects_trans.
Qed.

(** On any heap the store model returns the response of the pure
    model, and leaves the objects it found as they were. *)
Lemma store_parse text (h : Store.heap) :
  fst (Store.parse_ai_response text h) = parse_ai_response text
  /\ preserves h (snd (Store.parse_ai_response text h)).
Proof.
  unfold Store.parse_ai_response, parse_ai_response, Store.alloc. cbv zeta.
  set (a1 := fresh (dom h)). set (h1 := <[a1:=[]]> h).
  set (a2 := fresh (dom h1)). set (h2 := <[a2:=[]]> h1).
  set (a3 := fresh (dom h2)). set (h3 := <[a3:=[]]> h2).
  assert (h !! a1 = None) as F1 by apply not_elem_of_dom, is_fresh.
  assert (h1 !! a2 = None) as F2 by apply not_elem_of_dom, is_fresh.
  assert (h2 !! a3 = None) as F3 by apply not_elem_of_dom, is_fresh.
  assert (a1 <> a2) as N12.
  { intros E. subst h1. rewrite <- E, lookup_insert_eq in F2. done. }
  assert (a2 <> a3) as N23.
  { intros E. subst h2. rewrite <- E, lookup_insert_eq in F3. done. }
  assert (a1 <> a3) as N13.
  { intros E. subst h2 h1.
    rewrite <- E, lookup_insert_ne, lookup_insert_eq in F3 by done. done. }
  destruct (run_represents (split NEWLINE text)
              (Store.Frame [] a1 a2 a3 None None, h3) init) as [Hr Ho].
  { subst h3 h2 h1. repeat split; try done; simpl.
    - by rewrite !lookup_insert_ne, lookup_insert_eq by done.
    - by rewrite lookup_insert_ne, lookup_insert_eq by done.
    - by rewrite lookup_insert_eq. }
  destruct (fold_left Store.step (split NEWLINE text)
              (Store.Frame [] a1 a2 a3 None None, h3)) as [fr' h'].
  destruct Hr as (Hs & Hh & Hw & Hd & He & _).
  destruct Ho as (_ & _ & _ & Hout). simpl in *.
  split.
  - unfold Store.read. by rewrite Hs, Hh, Hw, Hd, He.
  - intros a xs Ha.
    assert (a <> a1) as A1 by congruence.
    assert (h1 !! a = Some xs) as Ha1
        by (subst h1; by rewrite lookup_insert_ne).
    assert (a <> a2) as A2 by congruence.
    assert (h2 !! a = Some xs) as Ha2
        by (subst h2; by rewrite lookup_insert_ne).
    assert (a <> a3) as A3 by congruence.
    rewrite Hout by done. subst h3. by rewrite lookup_insert_ne.
Qed.

End StoreFacts.

(** ** Properties of the parser *)

(** C2: for every input text the parser returns a response record; the
    constructor of the model never rejects what the loop computed, so no
    exception is raised. *)
Theorem parse_ai_response_total (text : pystr) :
  exists r : AnalysisResponse.t, parse_ai_response text = Some r.
Proof. eexists. apply parse_ai_response_unfold. Qed.

(** C6: when the marker of a section occurs nowhere in the text, the
    parser returns a response whose field for that section holds its
    default; when none of the five markers occurs, the response is the
    all-default one. *)
Theorem omitted_section_default (text : pystr) (sec : section)
    (Hno : contains (marker sec) text = false) :
  exists r, parse_ai_response text = Some r
            /\ at_default sec r
            /\ ((forall s, contains (marker s) text = false) -> r = default_response).
Proof.
  assert (forall s, contains (marker s) text = false ->
            untouched s init (parse_lines init (split NEWLINE text))) as Hkeep.
  { intros s Hs. apply parse_lines_untouched; [done|].
    apply Forall_forall. intros raw Hin%split_substring.
    apply no_marker_no_header. by eapply contains_mono_false. }
  eexists. split; [apply parse_ai_response_unfold|]. split.
  - specialize (Hkeep sec Hno). by destruct sec.
  - intros Hall.
    pose proof (Hkeep Summary (Hall _)) as H1.
    pose proof (Hkeep Highlights (Hall _)) as H2.
    pose proof (Hkeep WhatToDo (Hall _)) as H3.
    pose proof (Hkeep ImportantDates (Hall _)) as H4.
    pose proof (Hkeep EmailPrompt (Hall _)) as H5.
    unfold result_of, default_response. simpl in *. congruence.
Qed.

Lemma omitted_section_default_witness :
  exists r, parse_ai_response (str (nl "Dear tenant," "- pay the rent")) = Some r
            /\ at_default Highlights r /\ r = default_response.
Proof.
  destruct (omitted_section_default
              (str (nl "Dear tenant," "- pay the rent")) Highlights)
    as (r & Hr & Hd & Hall); [reflexivity|].
  exists r. repeat split; [exact Hr | exact Hd |].
  apply Hall. intros []; reflexivity.
Defined.

(** C7: when no line of the text contains the Email Prompt marker, the
    email prompt of the response is absent, which is not the empty
    string. *)
Theorem email_prompt_absent (text : pystr)
    (Hno : Forall (fun line => contains (marker EmailPrompt) line = false)
             (split NEWLINE text)) :
  exists r, parse_ai_response text = Some r
            /\ AnalysisResponse.email_prompt r = None
            /\ AnalysisResponse.email_prompt r <> Some [].
Proof.
  eexists. split; [apply parse_ai_response_unfold|].
  destruct (parse_lines_untouched EmailPrompt (split NEWLINE text) init) as [Hu _].
  - done.
  - eapply Forall_impl; [exact Hno|]. intros raw. apply no_marker_no_header.
  - simpl in *. rewrite Hu. done.
Qed.

Lemma email_prompt_absent_witness :
  exists r, parse_ai_response (str (nl "**Summary:**" "Rent is due.")) = Some r
            /\ AnalysisResponse.email_prompt r = None
            /\ AnalysisResponse.email_prompt r <> Some [].
Proof.
  apply (email_prompt_absent (str (nl "**Summary:**" "Rent is due."))).
  repeat constructor.
Defined.

(** C10: every string the parser stores is non-empty and neither begins
    nor ends with whitespace: the items of the three lists, the summary
    unless it is the default empty string, and the email prompt when
    present. *)
Theorem stored_strings_clean (text : pystr) :
  exists r, parse_ai_response text = Some r
    /\ Forall (fun s => is_clean s = true) (AnalysisResponse.highlights r)
    /\ Forall (fun s => is_clean s = true) (AnalysisResponse.what_to_do r)
    /\ Forall (fun s => is_clean s = true) (AnalysisResponse.important_dates r)
    /\ (AnalysisResponse.summary r <> [] ->
        is_clean (AnalysisResponse.summary r) = true)
    /\ (forall e, AnalysisResponse.email_prompt r = Some e ->
                  is_clean e = true /\ e <> []).
Proof.
  eexists. split; [apply parse_ai_response_unfold|].
  destruct (parse_lines_clean (split NEWLINE text) init) as (Hh & Hw & Hd & Hs & He).
  { repeat split; try done; constructor. }
  do 4 (split; [done|]). intros e Hsome. split; [by apply He|].
  intros ->. by apply He in Hsome.
Qed.

(** C3: a line that contains one of the five markers anywhere switches
    the current section to the section of a marker it contains, the one
    of the marker named when the line holds no other, and leaves the
    five result fields as they were: nothing of the line is stored. *)
Theorem header_line_switches (st : locals) (raw : pystr) (sec : section)
    (Hin : contains (marker sec) raw = true) :
  exists sec',
    contains (marker sec') raw = true
    /\ step st raw = set_section sec' st
    /\ current_section (step st raw) = Some sec'
    /\ same_fields st (step st raw)
    /\ ((forall s, contains (marker s) raw = true -> s = sec) -> sec' = sec).
Proof.
  pose proof (contains_strip _ _ (marker_clean sec) Hin) as Hline.
  destruct (header_of (strip raw)) as [sec'|] eqn:E.
  - pose proof (proj1 (header_of_Some _ _) E) as [Hin' _].
    apply strip_contains in Hin'.
    exists sec'. rewrite (step_header _ _ _ E). repeat split; auto.
  - rewrite header_of_None in E. rewrite E in Hline. done.
Qed.

Lemma header_line_switches_witness :
  exists sec',
    contains (marker sec') (str "  **Highlights:** the rent, the date") = true
    /\ step init (str "  **Highlights:** the rent, the date")
       = set_section sec' init
    /\ current_section (step init (str "  **Highlights:** the rent, the date"))
       = Some sec'
    /\ same_fields init (step init (str "  **Highlights:** the rent, the date"))
    /\ sec' = Highlights.
Proof.
  destruct (header_line_switches init
              (str "  **Highlights:** the rent, the date") Highlights)
    as (sec' & H1 & H2 & H3 & H4 & H5); [reflexivity|].
  exists sec'. repeat split; try assumption.
  apply H5. intros []; (reflexivity || discriminate).
Defined.

(** C9: the markers are tested in the order Summary, Highlights, What To
    Do, Important Dates, Email Prompt: a line switches to the section of
    the first marker in that order that it contains, wherever the markers
    stand in the line. *)
Theorem header_check_order (st : locals) (raw : pystr) (sec : section)
    (Hin : contains (marker sec) raw = true)
    (Hlow : forall s, (rank s < rank sec)%nat -> contains (marker s) raw = false) :
  step st raw = set_section sec st /\ current_section (step st raw) = Some sec.
Proof.
  assert (header_of (strip raw) = Some sec) as E.
  { apply header_of_Some. split.
    - apply contains_strip; [apply marker_clean | done].
    - intros s Hs. eapply contains_mono_false; [apply strip_substring|].
      by apply Hlow. }
  by rewrite (step_header _ _ _ E).
Qed.

Lemma header_check_order_witness :
  contains (marker EmailPrompt) (str "**Email Prompt:** see **Summary:**") = true
  /\ step init (str "**Email Prompt:** see **Summary:**")
     = set_section Summary init
  /\ current_section (step init (str "**Email Prompt:** see **Summary:**"))
     = Some Summary.
Proof.
  split; [reflexivity|].
  apply (header_check_order init
           (str "**Email Prompt:** see **Summary:**") Summary).
  - reflexivity.
  - intros s Hs. simpl in Hs. lia.
Defined.

(** C4: in the Summary section (respectively Email Prompt), of several
    qualifying lines met before the next header or the end of the input
    the last one is kept: the summary (respectively the email prompt) of
    the response is that line, stripped; earlier ones are overwritten. *)
Theorem last_line_wins (text : pystr) (sec : section)
    (pre : list pystr) (hdr : pystr) (ls : list pystr) (l : pystr)
    (ls' post : list pystr)
    (Hlines : split NEWLINE text = pre ++ hdr :: ls ++ l :: ls' ++ post)
    (Hhdr : header_of (strip hdr) = Some sec)
    (Hls : Forall (fun raw => is_header (strip raw) = false) ls)
    (Hl : qualifying l = true)
    (Hls' : Forall (fun raw => skipped raw = true) ls')
    (Hnext : post = []
             \/ exists h post', post = h :: post' /\ is_header (strip h) = true)
    (Hpost : Forall (fun raw => header_of (strip raw) <> Some sec) post) :
  exists r, parse_ai_response text = Some r
    /\ (sec = Summary -> AnalysisResponse.summary r = strip l)
    /\ (sec = EmailPrompt -> AnalysisResponse.email_prompt r = Some (strip l)).
Proof.
  eexists. split; [apply parse_ai_response_unfold|].
  rewrite Hlines, parse_lines_app. simpl.
  rewrite (step_header _ _ _ Hhdr).
  set (st1 := set_section sec (parse_lines init pre)).
  change (fold_left step (ls ++ l :: ls' ++ post) st1)
    with (parse_lines st1 (ls ++ l :: ls' ++ post)).
  rewrite parse_lines_app.
  pose proof (parse_lines_section ls st1 Hls) as Hcur. simpl in Hcur.
  set (st2 := parse_lines st1 ls) in *.
  change (parse_lines st2 (l :: ls' ++ post))
    with (parse_lines (step st2 l) (ls' ++ post)).
  rewrite parse_lines_app.
  assert (is_header (strip l) = false) as Hlh.
  { unfold qualifying in Hl. by destruct (is_header (strip l)), (falsy (strip l)). }
  assert (forall st, current_section st = Some sec ->
            untouched sec st (parse_lines st post)) as Hfrozen.
  { intros st Hst. destruct Hnext as [->|(h & post' & -> & Hh)].
    - apply untouched_refl.
    - apply Forall_cons in Hpost as [Hh' Hpost']. simpl.
      rewrite is_header_of in Hh.
      destruct (header_of (strip h)) as [s|] eqn:E; [|done].
      rewrite (step_header _ _ _ E).
      destruct (parse_lines_untouched sec post' (set_section s st)) as [Hu _];
        [simpl; congruence | done |].
      eapply untouched_trans; [|exact Hu]. by destruct sec. }
  split; intros ->.
  - rewrite (step_summary _ _ Hcur Hlh), Hl.
    rewrite (parse_lines_skipped ls') by (done || by left).
    pose proof (Hfrozen (set_summary (strip l) st2) Hcur) as Hu.
    simpl in Hu |- *. by rewrite Hu.
  - rewrite (step_email_prompt _ _ Hcur Hlh), Hl.
    rewrite (parse_lines_skipped ls') by (done || by right).
    pose proof (Hfrozen (set_email_prompt (strip l) st2) Hcur) as Hu.
    simpl in Hu |- *. by rewrite Hu.
Qed.

Lemma last_line_wins_witness :
  exists r, parse_ai_response (str (nl "**Summary:**" (nl "Line A" "Line B")))
            = Some r
    /\ AnalysisResponse.summary r = str "Line B".
Proof.
  destruct (last_line_wins (str (nl "**Summary:**" (nl "Line A" "Line B")))
              Summary [] (str "**Summary:**") [str "Line A"] (str "Line B")
              [] [])
    as (r & Hr & Hs & _).
  - reflexivity.
  - reflexivity.
  - repeat constructor.
  - reflexivity.
  - constructor.
  - left. reflexivity.
  - constructor.
  - exists r. split; [exact Hr|]. apply Hs. reflexivity.
Defined.

(** C5, as first stated: every line that begins with the bullet marker
    inside a list section is appended, as the remainder after the marker,
    verbatim.  A bullet line that holds a header marker is a header, not
    an item: nothing is appended.  An item also loses the whitespace that
    follows the two characters of the marker, so it need not be the
    remainder as it stands. *)
Lemma bullet_line_not_appended_verbatim :
  current_section (step init (str "**Highlights:**")) = Some Highlights
  /\ startswith (strip (str "- see **Summary:** above")) (str "- ") = true
  /\ highlights (step (step init (str "**Highlights:**"))
                   (str "- see **Summary:** above")) = []
  /\ startswith (strip (str "-   A")) (str "- ") = true
  /\ drop 2 (strip (str "-   A")) = str "  A"
  /\ highlights (step (step init (str "**Highlights:**")) (str "-   A"))
     = [str "A"].
Proof. repeat split; reflexivity. Qed.

(** C5, amended: in a list section, over lines that hold no header
    marker, the parser appends to the list of that section, in the order
    of the lines, what follows the two-character bullet marker of each
    line that begins with it, with the whitespace in front of that
    remainder removed and nothing else changed; the other fields keep
    their values.  The example of the specification holds. *)
Theorem bullet_items_appended (st : locals) (sec : section) (raws : list pystr)
    (Hsec : in_list_sections (Some sec) = true)
    (Hcur : current_section st = Some sec)
    (Hraws : Forall (fun raw => is_header (strip raw) = false) raws) :
  items sec (parse_lines st raws)
  = items sec st ++ map bullet_content (List.filter is_bullet raws)
  /\ (forall s, s <> sec -> untouched s st (parse_lines st raws))
  /\ (forall raw, is_bullet raw = true ->
                  bullet_content raw = lstrip (drop 2 (strip raw)))
  /\ parse_ai_response
       (str (nl "**Highlights:**"
               (nl "- A" (nl "- B" (nl "**What To Do:**" "- C")))))
     = Some (AnalysisResponse.mk [] [str "A"; str "B"] [str "C"] [] None).
Proof.
  destruct (parse_lines_bullets sec raws st Hsec Hcur Hraws) as [Hi Hu].
  split; [exact Hi|]. split; [exact Hu|]. split; [|reflexivity].
  intros raw Hb. apply bullet_content_lstrip.
  unfold is_bullet in Hb. by destruct (startswith (strip raw) (str "- ")).
Qed.

Lemma bullet_items_appended_witness :
  items Highlights
    (parse_lines (step init (str "**Highlights:**"))
       [str "-  rent is due "; str ""; str "no bullet here"; str "- pay by Friday"])
  = [str "rent is due"; str "pay by Friday"].
Proof.
  apply (bullet_items_appended (step init (str "**Highlights:**")) Highlights
           [str "-  rent is due "; str ""; str "no bullet here";
            str "- pay by Friday"]).
  - reflexivity.
  - reflexivity.
  - repeat constructor.
Defined.

(** C1, as first stated: a bullet line met outside the three list
    sections contributes nothing to any field.  In the Summary section it
    becomes the summary, and in the Email Prompt section the email
    prompt. *)
Lemma bullet_in_summary_is_stored :
  startswith (strip (str "- pay by Friday")) (str "- ") = true
  /\ in_list_sections (current_section (step init (str "**Summary:**"))) = false
  /\ summary (step init (str "**Summary:**")) = []
  /\ summary (step (step init (str "**Summary:**")) (str "- pay by Friday"))
     = str "- pay by Friday"
  /\ parse_ai_response (str (nl "**Summary:**" "- pay by Friday"))
     = Some (AnalysisResponse.mk (str "- pay by Friday") [] [] [] None)
  /\ parse_ai_response (str (nl "**Email Prompt:**" "- write to the landlord"))
     = Some (AnalysisResponse.mk [] [] [] []
               (Some (str "- write to the landlord"))).
Proof. repeat split; reflexivity. Qed.

(** C1, amended: a bullet line met outside the three list sections is
    never appended to a list.  Before any section, or when it holds a
    header marker, it leaves the five fields as they were; when it holds
    no header marker it leaves the state unchanged before any section,
    and is stored like any other line in the Summary section (as the
    summary) and in the Email Prompt section (as the email prompt). *)
Theorem bullet_outside_list_sections (st : locals) (raw : pystr)
    (Hb : startswith (strip raw) (str "- ") = true)
    (Hsec : in_list_sections (current_section st) = false) :
  highlights (step st raw) = highlights st
  /\ what_to_do (step st raw) = what_to_do st
  /\ important_dates (step st raw) = important_dates st
  /\ (current_section st = None -> same_fields st (step st raw))
  /\ (is_header (strip raw) = true -> same_fields st (step st raw))
  /\ (is_header (strip raw) = false -> current_section st = None ->
      step st raw = st)
  /\ (is_header (strip raw) = false -> current_section st = Some Summary ->
      step st raw = set_summary (strip raw) st)
  /\ (is_header (strip raw) = false -> current_section st = Some EmailPrompt ->
      step st raw = set_email_prompt (strip raw) st).
Proof.
  rewrite is_header_of.
  destruct (header_of (strip raw)) as [s|] eqn:E.
  - rewrite (step_header _ _ _ E). by repeat split.
  - rewrite (step_content _ _ E).
    destruct (bullet_not_bold _ Hb) as [Hbold Hne].
    rewrite Hne. unfold on_content. rewrite Hb, Hsec, Hne, Hbold.
    destruct st as [? ? ? ? ? [[]|]]; try done; by repeat split.
Qed.

Lemma bullet_outside_list_sections_witness :
  highlights (step init (str "- stray item")) = highlights init
  /\ what_to_do (step init (str "- stray item")) = what_to_do init
  /\ important_dates (step init (str "- stray item")) = important_dates init
  /\ same_fields init (step init (str "- stray item"))
  /\ step init (str "- stray item") = init.
Proof.
  destruct (bullet_outside_list_sections init (str "- stray item"))
    as (H1 & H2 & H3 & H4 & _ & H6 & _); [reflexivity | reflexivity |].
  split; [exact H1|]. split; [exact H2|]. split; [exact H3|].
  split; [apply H4 | apply H6]; reflexivity.
Defined.

(** C8: the parser is deterministic and keeps no state: whatever list
    objects the heap of the process holds, an invocation returns the
    response that the text alone determines, leaves those objects as
    they were, and a second invocation on the heap the first one left
    returns the same response. *)
Theorem parse_ai_response_deterministic (text : pystr) (h1 h2 : Store.heap) :
  fst (Store.parse_ai_response text h1) = fst (Store.parse_ai_response text h2)
  /\ fst (Store.parse_ai_response text (snd (Store.parse_ai_response text h1)))
     = fst (Store.parse_ai_response text h1)
  /\ fst (Store.parse_ai_response text h1) = parse_ai_response text
  /\ preserves h1 (snd (Store.parse_ai_response text h1)).
Proof.
  pose proof (store_parse text h1) as [E1 P1].
  pose proof (store_parse text h2) as [E2 _].
  pose proof (store_parse text (snd (Store.parse_ai_response text h1))) as [E3 _].
  repeat split; try congruence. exact P1.
Qed.

(** ** Further facts about the parser *)

Section StoredFacts.

Lemma substring_refl (s : pystr) : substring s s.
Proof. exists [], []. by rewrite app_nil_r. Qed.

Lemma substring_nil (s : pystr) : substring [] s.
Proof. by exists [], s. Qed.

Lemma drop_substring n (s : pystr) : substring (drop n s) s.
Proof. exists (take n s), []. by rewrite app_nil_r, take_drop. Qed.

Lemma bullet_content_substring raw : substring (bullet_content raw) raw.
Proof.
  unfold bullet_content.
  eapply substring_trans; [apply strip_substring|].
  eapply substring_trans; [apply drop_substring | apply strip_substring].
Qed.

Lemma split_no_sep sep s line : line ∈ split sep s -> sep ∉ line.
Proof.
  revert line. induction s as [|c s IH]; simpl; intros line Hin.
  - apply list_elem_of_singleton in Hin as ->. apply not_elem_of_nil.
  - destruct (N.eqb_spec c sep) as [->|Hne].
    + apply elem_of_cons in Hin as [->|Hin]; [apply not_elem_of_nil | by apply IH].
    + destruct (split_cons sep s) as (piece & pieces & rest & E & _).
      rewrite E in Hin, IH. apply elem_of_cons in Hin as [->|Hin].
      * apply not_elem_of_cons. split; [done|]. apply IH. by left.
      * apply IH. by right.
Qed.

Lemma substring_not_elem (c : char) a b : substring a b -> c ∉ b -> c ∉ a.
Proof.
  intros [pre [post ->]] Hb Ha. apply Hb.
  apply elem_of_app. right. apply elem_of_app. by left.
Qed.

Lemma substring_not_header a b :
  substring a b -> is_header b = false -> is_header a = false.
Proof.
  rewrite !is_header_false, !header_of_None. intros Hab Hb s.
  by eapply contains_mono_false.
Qed.

(** What one iteration may store is the stripped line or the content of
    the bullet item. *)
Lemma step_stored (Pt Pi : pystr -> Prop) st raw :
  (strip raw <> [] -> header_of (strip raw) = None ->
   startswith (strip raw) (str "**") = false -> Pt (strip raw)) ->
  (bulleted raw = true -> header_of (strip raw) = None ->
   Pi (bullet_content raw)) ->
  all_stored Pt Pi st -> all_stored Pt Pi (step st raw).
Proof.
  intros Ht Hi (Hs & He & Hh & Hw & Hd).
  destruct (header_of (strip raw)) as [s|] eqn:E.
  - by rewrite (step_header _ _ _ E).
  - rewrite (step_content _ _ E). unfold bulleted, bullet_content in *.
    destruct (strip raw) as [|c r] eqn:Hl; [done|]. simpl falsy. cbv iota.
    specialize (Ht ltac:(done) eq_refl).
    unfold on_content.
    destruct (startswith (c :: r) (str "- ")) eqn:Hb.
    + specialize (Hi eq_refl eq_refl).
      destruct (startswith (c :: r) (str "**")),
        st as [? ? ? ? ? [[]|]]; simpl in *;
        repeat split; try done;
        try (apply Forall_app; split; [done | by constructor]);
        try (intros; by apply Ht); by intros ? [= <-]; apply Ht.
    + destruct (startswith (c :: r) (str "**")),
        st as [? ? ? ? ? [[]|]]; simpl in *;
        repeat split; try done;
        try (intros; by apply Ht); by intros ? [= <-]; apply Ht.
Qed.

Lemma parse_lines_stored (Pt Pi : pystr -> Prop) lines st :
  Forall (fun raw =>
    (strip raw <> [] -> header_of (strip raw) = None ->
     startswith (strip raw) (str "**") = false -> Pt (strip raw))
    /\ (bulleted raw = true -> header_of (strip raw) = None ->
        Pi (bullet_content raw))) lines ->
  all_stored Pt Pi st -> all_stored Pt Pi (parse_lines st lines).
Proof.
  intros Hall. revert st.
  induction Hall as [|raw lines [Ht Hi] _ IH]; intros st Hst; [done|].
  simpl. apply IH. by apply step_stored.
Qed.

Lemma all_stored_fields Pt Pi st :
  all_stored Pt Pi st -> all_fields Pt Pi (result_of st).
Proof. done. Qed.

Lemma all_stored_init Pt Pi : all_stored Pt Pi init.
Proof. repeat split; try done; constructor. Qed.

Lemma step_item_count st raw :
  (item_count (step st raw)
   <= item_count st + (if bulleted raw then 1 else 0))%nat.
Proof.
  destruct (header_of (strip raw)) as [s|] eqn:E.
  - rewrite (step_header _ _ _ E). unfold item_count. simpl. lia.
  - rewrite (step_content _ _ E). unfold bulleted, on_content.
    destruct (falsy (strip raw)); [lia|].
    destruct (startswith (strip raw) (str "- ")),
      (startswith (strip raw) (str "**")),
      st as [? ? ? ? ? [[]|]];
      unfold item_count; simpl; rewrite ?length_app; simpl; lia.
Qed.

Lemma parse_lines_item_count lines st :
  (item_count (parse_lines st lines)
   <= item_count st + length (List.filter bulleted lines))%nat.
Proof.
  revert st. induction lines as [|raw lines IH]; intros st; simpl; [lia|].
  pose proof (step_item_count st raw) as H1.
  specialize (IH (step st raw)).
  destruct (bulleted raw); simpl; lia.
Qed.

End StoredFacts.

(** ** Lines, whitespace and growth *)

Section LineFacts.

Lemma split_app sep a b :
  split sep (a ++ sep :: b) = split sep a ++ split sep b.
Proof.
  induction a as [|c a IH]; simpl.
  - by rewrite N.eqb_refl.
  - destruct (c =? sep); [by rewrite IH|].
    rewrite IH. destruct (split_cons sep a) as (p & ps & _ & -> & _). done.
Qed.

Lemma lstrip_spaces ws s :
  Forall (fun c => isspace c = true) ws -> lstrip (ws ++ s) = lstrip s.
Proof. induction 1 as [|c ws Hc _ IH]; simpl; [done|]. by rewrite Hc. Qed.

Lemma rstrip_spaces ws s :
  Forall (fun c => isspace c = true) ws -> rstrip (s ++ ws) = rstrip s.
Proof.
  intros Hws. assert (rstrip ws = []) as Hnil.
  { induction Hws as [|c ws Hc _ IH]; simpl; [done|]. by rewrite IH, Hc. }
  induction s as [|c s IH]; simpl; [done|]. by rewrite IH.
Qed.

Lemma lstrip_app s ws :
  Forall (fun c => isspace c = true) ws ->
  (lstrip (s ++ ws) = [] /\ lstrip s = []) \/ lstrip (s ++ ws) = lstrip s ++ ws.
Proof.
  intros Hws. induction s as [|c s IH]; simpl.
  - left. split; [|done]. rewrite <- (app_nil_r ws) at 1. by rewrite lstrip_spaces.
  - destruct (isspace c); [exact IH | by right].
Qed.

(** Whitespace around a line does not change what it strips to. *)
Lemma strip_pad ws1 s ws2 :
  Forall (fun c => isspace c = true) ws1 ->
  Forall (fun c => isspace c = true) ws2 ->
  strip (ws1 ++ s ++ ws2) = strip s.
Proof.
  intros H1 H2. unfold strip. rewrite lstrip_spaces by done.
  destruct (lstrip_app s ws2 H2) as [[-> ->]| ->]; [done|].
  by apply rstrip_spaces.
Qed.

Lemma strip_idem s : strip (strip s) = strip s.
Proof.
  destruct (strip s) as [|c r] eqn:E; [done|]. rewrite <- E.
  assert (is_clean (strip s) = true) as Hc by (apply strip_clean; by rewrite E).
  apply is_clean_inv in Hc as (a & d & Ha & Hd & [t Ht] & [t' Ht']).
  unfold strip at 1. assert (lstrip (strip s) = strip s) as ->.
  { rewrite Ht. simpl. by rewrite Ha. }
  by apply (rstrip_id _ t' d).
Qed.

(** The loop sees a raw line through its stripped form only. *)
Lemma parse_lines_strip_eq xs ys st :
  Forall2 (fun x y => strip x = strip y) xs ys ->
  parse_lines st xs = parse_lines st ys.
Proof.
  intros H. revert st. induction H as [|x y xs ys Hxy _ IH]; intros st; [done|].
  simpl. assert (step st x = step st y) as ->; [|apply IH].
  unfold step. by rewrite Hxy.
Qed.

Lemma split_crlf text :
  Forall2 (fun x y => strip x = strip y)
    (split NEWLINE (crlf text)) (split NEWLINE text).
Proof.
  assert (Forall2 (fun x y => x = y \/ x = y ++ [0x0D])
            (split NEWLINE (crlf text)) (split NEWLINE text)) as H.
  { induction text as [|c text IH]; [repeat constructor|].
    simpl. destruct (c =? NEWLINE) eqn:E; simpl.
    - constructor; [by right | exact IH].
    - rewrite E.
      destruct (split_cons NEWLINE text) as (p & ps & _ & Ep & _).
      destruct (split_cons NEWLINE (crlf text)) as (q & qs & _ & Eq & _).
      rewrite Ep, Eq in IH |- *.
      apply Forall2_cons in IH as [[->| ->] IH]; constructor; auto. }
  eapply Forall2_impl; [exact H|]. intros x y [->| ->]; [done|].
  rewrite <- (strip_pad [] y [0x0D]) by repeat constructor. done.
Qed.

Lemma grows_refl st : grows st st.
Proof. by repeat split. Qed.

Lemma grows_trans a b c : grows a b -> grows b c -> grows a c.
Proof.
  intros (H1 & H2 & H3 & H4 & H5) (K1 & K2 & K3 & K4 & K5).
  repeat split; try (by etrans); auto.
Qed.

Lemma step_grows st raw : grows st (step st raw).
Proof.
  destruct (header_of (strip raw)) as [s|] eqn:E.
  - rewrite (step_header _ _ _ E). by repeat split.
  - rewrite (step_content _ _ E).
    destruct (strip raw) as [|c r] eqn:Hl; [apply grows_refl|]. simpl falsy.
    cbv iota. unfold on_content.
    destruct (startswith (c :: r) (str "- ")),
      (startswith (c :: r) (str "**")), st as [? ? ? ? ? [[]|]];
      simpl; repeat split; simpl; try done; by apply prefix_app_r.
Qed.

Lemma parse_lines_grows lines st : grows st (parse_lines st lines).
Proof.
  revert st. induction lines as [|raw lines IH]; intros st; [apply grows_refl|].
  eapply grows_trans; [apply step_grows | apply IH].
Qed.

End LineFacts.

(** ** Replies made of blocks *)

Section BlockFacts.

Lemma strip_clean_fix s : is_clean s = true -> strip s = s.
Proof.
  intros Hc. pose proof Hc as (a & d & Ha & Hd & [t Ht] & [t' Ht'])%is_clean_inv.
  unfold strip. assert (lstrip s = s) as ->.
  { rewrite Ht. simpl. by rewrite Ha. }
  by apply (rstrip_id _ t' d).
Qed.

Lemma parse_lines_significant lines st :
  parse_lines st lines = parse_lines st (significant lines).
Proof.
  revert st. induction lines as [|raw lines IH]; intros st; [done|].
  unfold significant. simpl. destruct (strip raw) as [|c r] eqn:E; simpl.
  - assert (step st raw = st) as ->; [|apply IH].
    unfold step. by rewrite E.
  - assert (step st raw = step st (c :: r)) as ->; [|apply IH].
    unfold step. by rewrite <- E, strip_idem.
Qed.

Lemma significant_app xs ys :
  significant (xs ++ ys) = significant xs ++ significant ys.
Proof. unfold significant. by rewrite List.map_app, List.filter_app. Qed.

Lemma marker_header sec : header_of (strip (marker sec)) = Some sec.
Proof. by destruct sec; vm_compute. Qed.

Lemma bullet_prefix_header (s : pystr) :
  is_header s = false -> is_header (str "- " ++ s) = false.
Proof.
  rewrite !is_header_false, !header_of_None. intros H sec.
  change (contains (marker sec) (str "- " ++ s))
    with (startswith (45 :: 32 :: s) (marker sec)
          || (startswith (32 :: s) (marker sec) || contains (marker sec) s)).
  rewrite H. by destruct sec.
Qed.

Lemma bullet_prefix_clean (s : pystr) :
  is_clean s = true -> is_clean (str "- " ++ s) = true.
Proof.
  intros (c & d & Hc & Hd & [t Ht] & [t' Ht'])%is_clean_inv.
  assert (last (45 :: 32 :: s) = Some d) as Hlast.
  { rewrite Ht'. change (45 :: 32 :: t' ++ [d]) with ([45; 32] ++ t' ++ [d]).
    rewrite app_assoc. apply last_snoc. }
  change (match last (45 :: 32 :: s) with
          | Some d0 => negb (isspace 45) && negb (isspace d0)
          | None => false
          end = true).
  by rewrite Hlast, Hd.
Qed.

(** A well-formed item, bulleted, is appended as it stands. *)
Lemma step_item st sec item :
  in_list_sections (Some sec) = true -> current_section st = Some sec ->
  item_ok item ->
  step st (str "- " ++ item) = append_to sec item st.
Proof.
  intros Hsec Hcur (Hclean & _ & Hhdr).
  pose proof (strip_clean_fix _ (bullet_prefix_clean _ Hclean)) as Hfix.
  rewrite (step_bullet st _ sec Hsec Hcur);
    [|rewrite Hfix; by apply bullet_prefix_header].
  unfold is_bullet, bullet_content. rewrite Hfix.
  rewrite bullet_prefix_header by done.
  change (drop 2 (str "- " ++ item)) with item.
  by rewrite strip_clean_fix.
Qed.

Lemma append_to_section sec c st :
  current_section (append_to sec c st) = current_section st.
Proof. by destruct sec. Qed.

Lemma text_qualifying s : text_ok s -> qualifying s = true /\ strip s = s.
Proof.
  intros [(Hclean & _ & Hhdr) Hbold].
  pose proof (strip_clean_fix _ Hclean) as Hfix.
  unfold qualifying. rewrite Hfix, Hhdr, Hbold. by destruct s.
Qed.

(** The loop over the body lines of a block, inside its section. *)
Lemma parse_body sec body st :
  current_section st = Some sec -> block_ok (sec, body) ->
  parse_lines st (map (body_line sec) body) = after_block st (sec, body).
Proof.
  unfold block_ok. simpl fst. simpl snd. intros Hcur Hok. revert st Hcur.
  induction Hok as [|s body Hs _ IH]; intros st Hcur.
  - destruct sec, st; unfold after_block; simpl in *; rewrite ?app_nil_r;
      congruence.
  - change (parse_lines st (map (body_line sec) (s :: body)))
      with (parse_lines (step st (body_line sec s)) (map (body_line sec) body)).
    destruct sec; simpl in Hs; unfold body_line at 1; cbn [in_list_sections].
    + pose proof (text_qualifying _ Hs) as [Hq Hfix].
      destruct Hs as [(_ & _ & Hhdr) _].
      rewrite step_summary, Hq, Hfix by (done || by rewrite Hfix).
      rewrite IH by done. unfold after_block. simpl. rewrite last_cons.
      by destruct (last body).
    + rewrite (step_item st Highlights) by done.
      rewrite IH by done. unfold after_block. simpl. by rewrite <- app_assoc.
    + rewrite (step_item st WhatToDo) by done.
      rewrite IH by done. unfold after_block. simpl. by rewrite <- app_assoc.
    + rewrite (step_item st ImportantDates) by done.
      rewrite IH by done. unfold after_block. simpl. by rewrite <- app_assoc.
    + pose proof (text_qualifying _ Hs) as [Hq Hfix].
      destruct Hs as [(_ & _ & Hhdr) _].
      rewrite step_email_prompt, Hq, Hfix by (done || by rewrite Hfix).
      rewrite IH by done. unfold after_block. simpl. rewrite last_cons.
      by destruct (last body).
Qed.

(** The loop over the bare lines of a block. *)
Lemma parse_block st b :
  block_ok b -> parse_lines st (block_lines b) = after_block st b.
Proof.
  destruct b as [sec body]. intros Hok. unfold block_lines. simpl.
  rewrite (step_header _ _ _ (marker_header sec)).
  change (fold_left step ?l ?x) with (parse_lines x l).
  rewrite (parse_body sec body) by done. by destruct sec.
Qed.

Lemma parse_blocks blocks st :
  Forall block_ok blocks ->
  parse_lines st (concat (map block_lines blocks))
  = fold_left after_block blocks st.
Proof.
  intros Hok. revert st.
  induction Hok as [|b blocks Hb _ IH]; intros st; [done|].
  change (concat (map block_lines (b :: blocks)))
    with (block_lines b ++ concat (map block_lines blocks)).
  rewrite parse_lines_app, parse_block by done. apply IH.
Qed.

Lemma bodies_cons sec b blocks :
  bodies sec (b :: blocks)
  = (if section_eqb (fst b) sec then snd b else []) ++ bodies sec blocks.
Proof. unfold bodies. simpl. by destruct (section_eqb (fst b) sec). Qed.

(** What a run of blocks leaves: each list extended by the bodies of its
    blocks in order, the summary and the email prompt taken from the last
    body line of theirs. *)
Lemma after_blocks_fields blocks st :
  summary (fold_left after_block blocks st)
  = default (summary st) (last (bodies Summary blocks))
  /\ highlights (fold_left after_block blocks st)
     = highlights st ++ bodies Highlights blocks
  /\ what_to_do (fold_left after_block blocks st)
     = what_to_do st ++ bodies WhatToDo blocks
  /\ important_dates (fold_left after_block blocks st)
     = important_dates st ++ bodies ImportantDates blocks
  /\ email_prompt (fold_left after_block blocks st)
     = match last (bodies EmailPrompt blocks) with
       | Some e => Some e
       | None => email_prompt st
       end.
Proof.
  revert st. induction blocks as [|[sec body] blocks IH]; intros st.
  - simpl. by rewrite !app_nil_r.
  - destruct (IH (after_block st (sec, body))) as (H1 & H2 & H3 & H4 & H5).
    simpl fold_left. rewrite H1, H2, H3, H4, H5, !bodies_cons.
    destruct sec; unfold after_block; simpl; rewrite ?last_app, <- ?app_assoc;
      repeat split; try done;
      repeat match goal with
             | |- context [last ?l] => destruct (last l)
             end; done.
Qed.

Lemma split_one sep (l : pystr) : sep ∉ l -> split sep l = [l].
Proof.
  induction l as [|c l IH]; [done|]. intros [Hc Hl]%not_elem_of_cons.
  simpl. rewrite (proj2 (N.eqb_neq c sep)) by done. by rewrite IH.
Qed.

Lemma split_join lines :
  lines <> [] -> Forall (fun l => NEWLINE ∉ l) lines ->
  split NEWLINE (join NEWLINE lines) = lines.
Proof.
  intros Hne Hall. induction Hall as [|l lines Hl Hall IH]; [done|].
  destruct lines as [|l' lines]; [by apply split_one|].
  change (join NEWLINE (l :: l' :: lines))
    with (l ++ NEWLINE :: join NEWLINE (l' :: lines)).
  rewrite split_app, split_one, IH by done. done.
Qed.

Lemma significant_split_join lines :
  Forall (fun l => NEWLINE ∉ l) lines ->
  significant (split NEWLINE (join NEWLINE lines)) = significant lines.
Proof.
  intros Hall. destruct lines as [|l lines]; [done|].
  by rewrite split_join.
Qed.

Lemma marker_line_strip sec : strip (marker sec ++ str "  ") = marker sec.
Proof.
  etrans; [apply (strip_pad [] (marker sec) (str "  ")); repeat constructor|].
  apply strip_clean_fix, marker_clean.
Qed.

Lemma layout_line_strip sec s :
  (if in_list_sections (Some sec) then item_ok s else text_ok s) ->
  strip (layout_line sec s) = body_line sec s /\ body_line sec s <> [].
Proof.
  intros Hs.
  assert (is_clean (body_line sec s) = true) as Hclean.
  { unfold body_line.
    destruct sec; simpl in *; try apply bullet_prefix_clean; apply Hs. }
  split; [|by destruct (body_line sec s)].
  destruct sec; unfold layout_line; try by apply strip_clean_fix.
  all: etrans; [apply (strip_pad [] _ (str "  ")); repeat constructor|].
  all: by apply strip_clean_fix.
Qed.

Lemma significant_layout sec body :
  block_ok (sec, body) ->
  significant (map (layout_line sec) body) = map (body_line sec) body.
Proof.
  unfold block_ok. simpl. induction 1 as [|s body Hs _ IH]; [done|].
  destruct (layout_line_strip sec s Hs) as [Hstrip Hne].
  unfold significant in *. simpl. rewrite Hstrip, IH.
  by destruct (body_line sec s).
Qed.

Lemma significant_section_text sec body :
  block_ok (sec, body) ->
  significant (section_text sec body)
  = concat (map block_lines (section_block sec body)).
Proof.
  intros Hok. destruct body as [|s body]; [done|].
  unfold section_text, section_block, block_lines. simpl fst. simpl snd.
  change ((marker sec ++ str "  ") :: map (layout_line sec) (s :: body) ++ [[]])
    with ([marker sec ++ str "  "] ++ map (layout_line sec) (s :: body) ++ [[]]).
  rewrite !significant_app, significant_layout by done.
  unfold significant at 1. simpl map. rewrite marker_line_strip.
  assert (falsy (marker sec) = false) as Hm by by destruct sec.
  simpl List.filter. rewrite Hm. simpl. by rewrite !app_nil_r.
Qed.

Lemma marker_no_newline sec : NEWLINE ∉ marker sec ++ str "  ".
Proof.
  apply (bool_decide_unpack _). by destruct sec; vm_compute.
Qed.

Lemma section_text_no_newline sec body :
  block_ok (sec, body) -> Forall (fun l => NEWLINE ∉ l) (section_text sec body).
Proof.
  intros Hok. destruct body as [|s body]; [constructor|].
  unfold section_text. constructor; [apply marker_no_newline|].
  apply Forall_app. split; [|repeat constructor; apply not_elem_of_nil].
  apply Forall_fmap. eapply Forall_impl; [exact Hok|].
  intros x Hx. simpl in *.
  assert (NEWLINE ∉ x) as Hnl by (destruct sec; simpl in Hx; apply Hx).
  assert (NEWLINE ∉ str "- ") as H1 by (apply (bool_decide_unpack _); by vm_compute).
  assert (NEWLINE ∉ str "  ") as H2 by (apply (bool_decide_unpack _); by vm_compute).
  destruct sec; unfold layout_line, body_line; cbn [in_list_sections];
    rewrite ?elem_of_app; tauto.
Qed.

Lemma fields_block_ok r :
  all_fields text_ok item_ok r ->
  block_ok (Summary, summary_body r)
  /\ block_ok (Highlights, AnalysisResponse.highlights r)
  /\ block_ok (WhatToDo, AnalysisResponse.what_to_do r)
  /\ block_ok (ImportantDates, AnalysisResponse.important_dates r)
  /\ block_ok (EmailPrompt, option_list (AnalysisResponse.email_prompt r)).
Proof.
  intros (Hs & He & Hh & Hw & Hd). unfold block_ok, summary_body. simpl.
  repeat split; try done.
  - destruct (AnalysisResponse.summary r) eqn:E; constructor; [|constructor].
    by apply Hs.
  - destruct (AnalysisResponse.email_prompt r) eqn:E; constructor; [|constructor].
    by apply He.
Qed.

Lemma section_block_ok sec body :
  block_ok (sec, body) -> Forall block_ok (section_block sec body).
Proof.
  intros H. destruct body; simpl; [constructor|].
  constructor; [done | constructor].
Qed.

Lemma bodies_blocks_of r :
  bodies Summary (blocks_of r) = summary_body r
  /\ bodies Highlights (blocks_of r) = AnalysisResponse.highlights r
  /\ bodies WhatToDo (blocks_of r) = AnalysisResponse.what_to_do r
  /\ bodies ImportantDates (blocks_of r) = AnalysisResponse.important_dates r
  /\ bodies EmailPrompt (blocks_of r)
     = option_list (AnalysisResponse.email_prompt r).
Proof.
  destruct r as [s h w d e]. unfold blocks_of, summary_body, bodies. simpl.
  destruct s, h, w, d, e; simpl; rewrite ?app_nil_r; done.
Qed.

(** A response whose strings are well formed is read back from the
    reply that states it. *)
Lemma render_parse r :
  all_fields text_ok item_ok r -> parse_ai_response (render r) = Some r.
Proof.
  intros (Bs & Bh & Bw & Bd & Be)%fields_block_ok.
  rewrite parse_ai_response_unfold. f_equal.
  rewrite parse_lines_significant. unfold render.
  rewrite significant_split_join
    by (repeat (apply Forall_app; split); by apply section_text_no_newline).
  rewrite !significant_app, !significant_section_text by done.
  rewrite <- !concat_app, <- !List.map_app. fold (blocks_of r).
  rewrite parse_blocks
    by (unfold blocks_of; repeat (apply Forall_app; split);
        by apply section_block_ok).
  destruct (after_blocks_fields (blocks_of r) init) as (H1 & H2 & H3 & H4 & H5).
  destruct (bodies_blocks_of r) as (E1 & E2 & E3 & E4 & E5).
  unfold result_of. rewrite H1, H2, H3, H4, H5, E1, E2, E3, E4, E5.
  unfold summary_body.
  by destruct r as [[|c s] h w d [e|]].
Qed.

(** What the parser stores is well formed. *)
Lemma parse_lines_well_formed text :
  all_stored text_ok item_ok (parse_lines init (split NEWLINE text)).
Proof.
  apply parse_lines_stored; [|apply all_stored_init].
  apply Forall_forall. intros raw Hin.
  pose proof (split_no_sep _ _ _ Hin) as Hnl. split.
  - intros Hne Hhdr Hbold. repeat split; try done.
    + by apply strip_clean.
    + eapply substring_not_elem; [apply strip_substring | done].
    + by apply is_header_false.
  - intros Hb Hhdr. repeat split.
    + unfold bulleted in Hb. apply bullet_content_clean; [|done].
      apply strip_clean. by destruct (strip raw).
    + eapply substring_not_elem; [apply bullet_content_substring | done].
    + eapply substring_not_header.
      * unfold bullet_content.
        eapply substring_trans; [apply strip_substring | apply drop_substring].
      * by apply is_header_false.
Qed.

End BlockFacts.

(** ** Facts about the endpoint *)

Section EndpointFacts.

(** The replies [message_content] finds a content in: a dictionary whose
    ["choices"] is a list that begins with a dictionary whose
    ["message"] is a dictionary with a ["content"]. *)
Lemma message_content_shape j v :
  message_content j = inr v <->
  exists items citems rest mitems,
    j = ObjDict items
    /\ lookup_key (str "choices") items = Some (ObjList (ObjDict citems :: rest))
    /\ lookup_key (str "message") citems = Some (ObjDict mitems)
    /\ lookup_key (str "content") mitems = Some v.
Proof.
  unfold message_content. split.
  - destruct j as [| | | |?|items]; try done. simpl.
    destruct (lookup_key (str "choices") items) as [choices|] eqn:E1; [|done].
    simpl. destruct choices as [| | |s|[|choice rest]|?]; try done.
    + simpl. destruct (index_of 0 (length s) ≫= _); done.
    + change (getitem (ObjList (choice :: rest)) (KeyInt 0)) with
        (@inr exn pyobj choice). simpl.
      destruct choice as [| | | |?|citems]; try done. simpl.
      destruct (lookup_key (str "message") citems) as [message|] eqn:E2; [|done].
      simpl. destruct message as [| | | |?|mitems]; try done. simpl.
      destruct (lookup_key (str "content") mitems) as [c|] eqn:E3; [|done].
      intros [= <-]. by exists items, citems, rest, mitems.
  - intros (items & citems & rest & mitems & -> & E1 & E2 & E3).
    simpl. rewrite E1. simpl.
    change (getitem (ObjList (ObjDict citems :: rest)) (KeyInt 0)) with
      (@inr exn pyobj (ObjDict citems)). simpl.
    rewrite E2. simpl. by rewrite E3.
Qed.

Lemma parse_message_inr message r :
  parse_message message = inr r <->
  exists s, message = ObjStr s /\ parse_ai_response s = Some r.
Proof.
  split.
  - destruct message; try done. simpl.
    destruct (parse_ai_response s) eqn:E; [|done]. intros [= <-]. eauto.
  - intros (s & -> & E). simpl. by rewrite E.
Qed.

Lemma truthy_Some o : truthy o = true <-> exists k, o = Some k /\ k <> [].
Proof.
  split.
  - destruct o as [[|c k]|]; try done. intros _. by exists (c :: k).
  - intros (k & -> & Hk). by destruct k.
Qed.

End EndpointFacts.

(** ** Further properties of the parser *)

(** X1: the parser stores nothing but fragments of its input: the
    summary, the email prompt and every list item occur in the text as
    contiguous blocks. *)
Theorem stored_strings_from_text (text : pystr) :
  exists r, parse_ai_response text = Some r
    /\ substring (AnalysisResponse.summary r) text
    /\ all_fields (fun s => substring s text) (fun s => substring s text) r.
Proof.
  eexists. split; [apply parse_ai_response_unfold|].
  assert (all_stored (fun s => substring s text) (fun s => substring s text)
            (parse_lines init (split NEWLINE text))) as Hall.
  { apply parse_lines_stored; [|apply all_stored_init].
    apply Forall_forall. intros raw Hin%split_substring. split.
    - intros _ _ _. eapply substring_trans; [apply strip_substring | done].
    - intros _ _. eapply substring_trans; [apply bullet_content_substring | done]. }
  split; [|by apply all_stored_fields].
  destruct Hall as [Hs _]. simpl.
  destruct (summary (parse_lines init (split NEWLINE text))) eqn:E;
    [apply substring_nil | apply Hs; done].
Qed.

(** X2: every string the parser stores is fit to be written back in the
    format it reads: it is clean, holds no newline and no header marker,
    and the summary and the email prompt do not begin with the bold
    token. *)
Theorem stored_strings_well_formed (text : pystr) :
  exists r, parse_ai_response text = Some r /\ all_fields text_ok item_ok r.
Proof.
  eexists. split; [apply parse_ai_response_unfold|].
  apply all_stored_fields, parse_lines_well_formed.
Qed.

(** X3: the three lists together hold at most one item per bulleted line
    of the text: every bulleted line adds to at most one list, and no
    other line adds anything. *)
Theorem item_count_bounded (text : pystr) :
  exists r, parse_ai_response text = Some r
    /\ (length (AnalysisResponse.highlights r)
        + length (AnalysisResponse.what_to_do r)
        + length (AnalysisResponse.important_dates r)
        <= length (List.filter bulleted (split NEWLINE text)))%nat.
Proof.
  eexists. split; [apply parse_ai_response_unfold|].
  apply (parse_lines_item_count (split NEWLINE text) init).
Qed.

(** X4: text appended to a reply after a line feed never takes anything
    back: the lists of the longer text begin with the lists of the
    shorter one, and a summary or an email prompt that the shorter text
    gave is still given, possibly replaced. *)
Theorem appended_text_only_adds (a b : pystr) :
  exists ra rab,
    parse_ai_response a = Some ra
    /\ parse_ai_response (a ++ NEWLINE :: b) = Some rab
    /\ AnalysisResponse.highlights ra `prefix_of` AnalysisResponse.highlights rab
    /\ AnalysisResponse.what_to_do ra `prefix_of` AnalysisResponse.what_to_do rab
    /\ AnalysisResponse.important_dates ra
       `prefix_of` AnalysisResponse.important_dates rab
    /\ (AnalysisResponse.summary ra <> [] -> AnalysisResponse.summary rab <> [])
    /\ (AnalysisResponse.email_prompt ra <> None ->
        AnalysisResponse.email_prompt rab <> None).
Proof.
  do 2 eexists. split; [apply parse_ai_response_unfold|].
  split; [apply parse_ai_response_unfold|].
  rewrite split_app, parse_lines_app.
  apply (parse_lines_grows (split NEWLINE b) (parse_lines init (split NEWLINE a))).
Qed.

(** X5: carriage returns before the line feeds make no difference: a
    reply with CRLF line ends parses to the response of the same reply
    with LF line ends. *)
Theorem crlf_line_ends_ignored (text : pystr) :
  parse_ai_response (crlf text) = parse_ai_response text.
Proof.
  rewrite !parse_ai_response_unfold. do 2 f_equal.
  apply parse_lines_strip_eq, split_crlf.
Qed.

(** X6: a line is dropped without any effect, the current section
    included, when it is blank, or when it holds no header marker and
    either no section has begun, or it begins with the bold token, or
    the current section is a list section and the line is not
    bulleted. *)
Theorem line_ignored (st : locals) (raw : pystr)
    (H : strip raw = []
         \/ (is_header (strip raw) = false
             /\ (current_section st = None
                 \/ startswith (strip raw) (str "**") = true
                 \/ (in_list_sections (current_section st) = true
                     /\ bulleted raw = false)))) :
  step st raw = st.
Proof.
  destruct H as [H | [Hhdr H]].
  - unfold step. by rewrite H.
  - rewrite step_content by by apply is_header_false.
    destruct (strip raw) as [|c r] eqn:E; [done|]. simpl falsy. cbv iota.
    unfold on_content, bulleted in *. rewrite E in H.
    destruct H as [H | [H | [H1 H2]]].
    + rewrite H. simpl. by rewrite andb_false_r.
    + rewrite H.
      assert (startswith (c :: r) (str "- ") = false) as ->.
      { apply startswith_spec in H as [rest ->]. done. }
      simpl. by rewrite !andb_false_r.
    + rewrite H2. simpl. by destruct (current_section st) as [[]|].
Qed.

Lemma line_ignored_witness :
  step (step init (str "**Highlights:**")) (str "  **Note:** read the back page ")
  = step init (str "**Highlights:**").
Proof.
  apply (line_ignored (step init (str "**Highlights:**"))
           (str "  **Note:** read the back page ")).
  right. split; [reflexivity|]. right. left. reflexivity.
Defined.

(** X7: a reply made of sections in any order, any of them repeated,
    with any blank lines and any whitespace around its lines, parses to
    the bodies of its sections: each list is the items of the sections of
    its kind, in the order of the text; the summary and the email prompt
    are the last body line of theirs. *)
Theorem sections_accumulate (text : pystr) (blocks : list block)
    (Hlines : significant (split NEWLINE text) = concat (map block_lines blocks))
    (Hok : Forall block_ok blocks) :
  parse_ai_response text
  = Some (AnalysisResponse.mk
            (default [] (last (bodies Summary blocks)))
            (bodies Highlights blocks)
            (bodies WhatToDo blocks)
            (bodies ImportantDates blocks)
            (last (bodies EmailPrompt blocks))).
Proof.
  rewrite parse_ai_response_unfold. f_equal.
  rewrite parse_lines_significant, Hlines, parse_blocks by done.
  destruct (after_blocks_fields blocks init) as (H1 & H2 & H3 & H4 & H5).
  unfold result_of. rewrite H1, H2, H3, H4, H5. simpl.
  by destruct (last (bodies EmailPrompt blocks)).
Qed.

Lemma sections_accumulate_witness :
  parse_ai_response
    (str (nl "  **Highlights:**  "
            (nl "  - rent is due" (nl ""
            (nl "**Summary:**" (nl "A first summary."
            (nl "**Highlights:**" (nl "- pay by Friday"
            (nl "**Summary:**" "The summary that counts.")))))))))
  = Some (AnalysisResponse.mk (str "The summary that counts.")
            [str "rent is due"; str "pay by Friday"] [] [] None).
Proof.
  apply (sections_accumulate _
           [(Highlights, [str "rent is due"]);
            (Summary, [str "A first summary."]);
            (Highlights, [str "pay by Friday"]);
            (Summary, [str "The summary that counts."])]).
  - reflexivity.
  - repeat constructor; apply (bool_decide_unpack _); by vm_compute.
Defined.

(** X8: a response whose strings are well formed is read back unchanged
    from the reply that states it in the layout of the prompt: headers
    ending in two spaces, bulleted items, a blank line after each
    section, sections without content left out. *)
Theorem render_round_trip (r : AnalysisResponse.t)
    (Hok : all_fields text_ok item_ok r) :
  parse_ai_response (render r) = Some r.
Proof. by apply render_parse. Qed.

Lemma render_round_trip_witness :
  parse_ai_response
    (render (AnalysisResponse.mk (str "Your rent goes up in March.")
               [str "New rent: 950"; str "Starts 2024-03-01"]
               [str "Reply to the landlord"]
               [str "2024-03-01: New rent applies"]
               (Some (str "Would you like me to write an email to the landlord?"))))
  = Some (AnalysisResponse.mk (str "Your rent goes up in March.")
            [str "New rent: 950"; str "Starts 2024-03-01"]
            [str "Reply to the landlord"]
            [str "2024-03-01: New rent applies"]
            (Some (str "Would you like me to write an email to the landlord?"))).
Proof.
  apply render_round_trip.
  split; [intros _|split; [intros e [= <-]|]];
    repeat constructor; apply (bool_decide_unpack _); by vm_compute.
Defined.

(** X9: the response of any text is a fixed point: stating it in the
    layout of the prompt and parsing that reply gives the same response
    again. *)
Theorem parse_render_parse (text : pystr) :
  exists r, parse_ai_response text = Some r
            /\ parse_ai_response (render r) = Some r.
Proof.
  eexists. split; [apply parse_ai_response_unfold|].
  apply render_parse, all_stored_fields, parse_lines_well_formed.
Qed.




(** X12: when the upstream API answers with a status other than 200, the
    endpoint fails with status 500, not with that status, which survives
    only inside the detail; one request was sent. *)
Theorem upstream_error_masked (py : runtime) (w : world)
    (contents : list N) (api_key : pystr) (response : requests.Response)
    (Hfile : file_read w = inr contents)
    (Hkey : os_getenv w (str "OPENROUTER_API_KEY") = Some api_key)
    (Hne : api_key <> [])
    (Hpost : requests_post w (build_request py w contents api_key) = inr response)
    (Hstatus : requests.status_code response <> 200%Z) :
  analyze_letter py w
  = (inl (HTTPException 500
            (str "Error analyzing letter: "
             ++ exn_str py
                  (HTTPException (requests.status_code response)
                     (str "OpenRouter API error: " ++ requests.text response)))),
     [build_request py w contents api_key]).
Proof.
  unfold analyze_letter, try_block. rewrite Hfile, Hkey. cbv zeta.
  destruct api_key as [|c k]; [done|]. simpl truthy. simpl negb. cbv iota.
  simpl default. rewrite Hpost.
  by rewrite (proj2 (Z.eqb_neq _ _) Hstatus).
Qed.

Lemma upstream_error_masked_witness :
  fst (analyze_letter (Runtime (fun _ => []) (fun _ => []) (fun _ => []) [])
         (World (inr [0x89; 0x50]) (Some (str "image/png"))
            (fun _ => Some (str "sk-test"))
            (fun _ => inr (requests.mkResponse 429 (str "rate limited")
                             (inl (Raised []))))))
  = inl (HTTPException 500 (str "Error analyzing letter: ")).
Proof.
  pose proof (upstream_error_masked
           (Runtime (fun _ => []) (fun _ => []) (fun _ => []) [])
           (World (inr [0x89; 0x50]) (Some (str "image/png"))
              (fun _ => Some (str "sk-test"))
              (fun _ => inr (requests.mkResponse 429 (str "rate limited")
                               (inl (Raised [])))))
           [0x89; 0x50] (str "sk-test")
           (requests.mkResponse 429 (str "rate limited") (inl (Raised [])))
           eq_refl eq_refl ltac:(discriminate) eq_refl ltac:(discriminate)) as H.
  exact (f_equal fst H).
Defined.

(** X13: the endpoint returns a response exactly when the upload was
    read, the API key is set and not empty, the one request was answered
    with status 200 and a JSON body of the shape
    [{"choices": [{"message": {"content": <string>}}, ...], ...}]; the
    response is then the parse of that string. *)
Theorem analyze_letter_succeeds_iff (py : runtime) (w : world)
    (r : AnalysisResponse.t) :
  fst (analyze_letter py w) = inr r <->
  exists contents api_key response items citems rest mitems message,
    file_read w = inr contents
    /\ os_getenv w (str "OPENROUTER_API_KEY") = Some api_key
    /\ api_key <> []
    /\ requests_post w (build_request py w contents api_key) = inr response
    /\ requests.status_code response = 200%Z
    /\ requests.json response = inr (ObjDict items)
    /\ lookup_key (str "choices") items = Some (ObjList (ObjDict citems :: rest))
    /\ lookup_key (str "message") citems = Some (ObjDict mitems)
    /\ lookup_key (str "content") mitems = Some (ObjStr message)
    /\ parse_ai_response message = Some r.
Proof.
  unfold analyze_letter, try_block. split.
  - destruct (file_read w) as [e|contents] eqn:Hfile; [done|]. cbv zeta.
    destruct (truthy _) eqn:Hkey; [|done].
    apply truthy_Some in Hkey as (api_key & Hkey & Hne). rewrite Hkey.
    simpl default.
    destruct (requests_post w _) as [e|response] eqn:Hpost; [done|].
    destruct (Z.eqb_spec (requests.status_code response) 200) as [Hs|Hs];
      [|done].
    destruct (requests.json response) as [e|j] eqn:Hjson; [done|]. simpl.
    destruct (message_content j) as [e|c] eqn:Hc; [done|]. simpl.
    destruct (parse_message c) as [e|r'] eqn:Hp; [done|]. intros [= ->].
    apply message_content_shape in Hc as (items & citems & rest & mitems
                                          & -> & E1 & E2 & E3).
    apply parse_message_inr in Hp as (message & -> & Hparse).
    by exists contents, api_key, response, items, citems, rest, mitems, message.
  - intros (contents & api_key & response & items & citems & rest & mitems
            & message & Hfile & Hkey & Hne & Hpost & Hs & Hjson & E1 & E2 & E3
            & Hparse).
    rewrite Hfile, Hkey. cbv zeta.
    destruct api_key as [|c k]; [done|]. simpl truthy. simpl negb. cbv iota.
    simpl default. rewrite Hpost, Hs, Hjson. simpl.
    rewrite (proj2 (message_content_shape _ (ObjStr message)))
      by by exists items, citems, rest, mitems.
    simpl. by rewrite Hparse.
Qed.
